(** * Configuration loader and HTTP surface of the CMS API backend

    A shallow embedding of [backend/src/config.py] and [backend/src/main.py].

    [config.py] declares a pydantic-settings class: the declaration (field
    names, annotations, defaults, [model_config]) is the program, and the
    behaviour of [Settings()] is the behaviour pydantic-settings gives such
    a declaration.  The embedding follows the steps of [BaseSettings.__init__]:
    every settings source is called, their states are merged with
    [deep_update], and the merged state is validated against the declared
    fields.  Three pieces of the library are kept abstract and are binders
    of every theorem about the loader: the lower-casing of a text that is
    not ASCII ([unicode_lower]: Python's [str.lower] follows Unicode), the
    JSON decoder used for complex fields ([json_loads]) and the integer
    validator on an input that is no canonical decimal text ([int_other]).
    A string is the UTF-8 text of a Python string. *)

From Stdlib Require Import String Ascii List ZArith Bool Lia.
From Stdlib Require Import DecimalString DecimalPos DecimalZ.
Import ListNotations.
Open Scope string_scope.

(** ** Strings *)

(** Lower-casing of the letters A to Z, every other character kept: what
    [bytes.lower()] does (the header names of a request are bytes) and
    what [str.lower()] does on a text that is ASCII. *)
Definition lower_ascii (c : ascii) : ascii :=
  let n := nat_of_ascii c in
  if (65 <=? n)%nat && (n <=? 90)%nat then ascii_of_nat (n + 32) else c.

Fixpoint ascii_lower (s : string) : string :=
  match s with
  | EmptyString => EmptyString
  | String c r => String (lower_ascii c) (ascii_lower r)
  end.

(** [s.isascii()] *)
Definition is_ascii (s : string) : bool :=
  forallb (fun c => (nat_of_ascii c <? 128)%nat) (list_ascii_of_string s).

Definition dquote : ascii := ascii_of_nat 34.

(** [s] between double quotes. *)
Definition quoted (s : string) : string :=
  String dquote (s ++ String dquote "").

(** [sep.join(parts)] *)
Fixpoint join (sep : string) (parts : list string) : string :=
  match parts with
  | [] => ""
  | [p] => p
  | p :: rest => p ++ sep ++ join sep rest
  end.

(** ** Python dictionaries: unique keys, insertion order *)

Definition dict (V : Type) := list (string * V).

Fixpoint dict_get {V} (k : string) (d : dict V) : option V :=
  match d with
  | [] => None
  | (k', v) :: r => if (k =? k')%string then Some v else dict_get k r
  end.

(** [d[k] = v]: an existing key keeps its place, a new key goes last. *)
Fixpoint dict_set {V} (k : string) (v : V) (d : dict V) : dict V :=
  match d with
  | [] => [(k, v)]
  | (k', v') :: r =>
      if (k =? k')%string then (k', v) :: r else (k', v') :: dict_set k v r
  end.

Definition dict_mem {V} (k : string) (d : dict V) : bool :=
  match dict_get k d with Some _ => true | None => false end.

(** [{k: v for k, v in items}]: a later item overrides an earlier one. *)
Definition dict_of_items {V} (items : list (string * V)) : dict V :=
  fold_left (fun d kv => dict_set (fst kv) (snd kv) d) items [].

(** ** Python values that reach the validators *)

#[warnings="-register-all"]
Inductive pyobj : Type :=
| PyNone
| PyBool (b : bool)
| PyInt (z : Z)
| PyFloat (repr : string)
| PyStr (s : string)
| PyList (l : list pyobj)
| PyDict (items : list (string * pyobj)).

(** [pydantic_settings.utils.deep_update(mapping, updating)]: a key of
    [updating] overrides the key of [mapping], except that two dictionaries
    under one key are merged recursively. *)
Fixpoint deep_update_value (old new : pyobj) {struct new} : pyobj :=
  match old, new with
  | PyDict d, PyDict u =>
      PyDict
        ((fix go (u : list (string * pyobj)) (d : dict pyobj) {struct u} :=
            match u with
            | [] => d
            | (k, v) :: u' =>
                go u' (dict_set k
                         (match dict_get k d with
                          | Some o => deep_update_value o v
                          | None => v
                          end) d)
            end) u d)
  | _, _ => new
  end.

Definition deep_update (mapping updating : dict pyobj) : dict pyobj :=
  fold_left
    (fun d kv =>
       dict_set (fst kv)
         (match dict_get (fst kv) d with
          | Some o => deep_update_value o (snd kv)
          | None => snd kv
          end) d)
    updating mapping.

(** ** The declared fields (config.py, lines 10-23) *)

Inductive annotation : Type := Tstr | Tint | Tlist_str.

(** A validated field value. *)
Inductive value : Type :=
| VStr (s : string)
| VInt (z : Z)
| VList (l : list string).

Record Field (A : Type) : Type := mkField {
  name : string;
  annot : annotation;
  default : option A          (* [None]: the field is required *)
}.
Arguments mkField {A}.
Arguments name {A}.
Arguments annot {A}.
Arguments default {A}.

Definition f_database_url : Field string :=
  mkField "database_url" Tstr (Some "file:./dev.db").
Definition f_api_host : Field string :=
  mkField "api_host" Tstr (Some "0.0.0.0").
Definition f_api_port : Field Z :=
  mkField "api_port" Tint (Some 8000%Z).
Definition f_cors_origins : Field (list string) :=
  mkField "cors_origins" Tlist_str (Some ["http://localhost:3000"]).
Definition f_secret_key : Field string :=
  mkField "secret_key" Tstr None.
Definition f_algorithm : Field string :=
  mkField "algorithm" Tstr (Some "HS256").
Definition f_access_token_expire_minutes : Field Z :=
  mkField "access_token_expire_minutes" Tint (Some 30%Z).

(** An instance of the class. *)
Record Settings : Type := mkSettings {
  database_url : string;
  api_host : string;
  api_port : Z;
  cors_origins : list string;
  secret_key : string;
  algorithm : string;
  access_token_expire_minutes : Z
}.

(** [Settings.model_fields]: name, annotation and default of every field,
    in declaration order. *)
Definition field_entry {A} (inj : A -> value) (f : Field A)
  : string * (annotation * option value) :=
  (name f, (annot f, option_map inj (default f))).

Definition model_fields : list (string * (annotation * option value)) :=
  [ field_entry VStr f_database_url;
    field_entry VStr f_api_host;
    field_entry VInt f_api_port;
    field_entry VList f_cors_origins;
    field_entry VStr f_secret_key;
    field_entry VStr f_algorithm;
    field_entry VInt f_access_token_expire_minutes ].

(** [getattr(settings, name)] *)
Definition getattr (s : Settings) (n : string) : option value :=
  if (n =? "database_url")%string then Some (VStr (database_url s))
  else if (n =? "api_host")%string then Some (VStr (api_host s))
  else if (n =? "api_port")%string then Some (VInt (api_port s))
  else if (n =? "cors_origins")%string then Some (VList (cors_origins s))
  else if (n =? "secret_key")%string then Some (VStr (secret_key s))
  else if (n =? "algorithm")%string then Some (VStr (algorithm s))
  else if (n =? "access_token_expire_minutes")%string
       then Some (VInt (access_token_expire_minutes s))
  else None.

(** [model_config] (config.py, lines 4-8).  [extra] is not set by the class:
    [BaseSettings] supplies ['forbid']. *)
Inductive extra_mode : Type := ExtraForbid | ExtraIgnore | ExtraAllow.

Record SettingsConfigDict : Type := {
  env_file : string;
  env_file_encoding : string;
  case_sensitive : bool;
  extra : extra_mode
}.

Definition model_config : SettingsConfigDict :=
  {| env_file := ".env";
     env_file_encoding := "utf-8";
     case_sensitive := false;
     extra := ExtraForbid |}.

(** ** Errors *)

Inductive loc_item : Type := LocKey (k : string) | LocIndex (i : nat).

Inductive error_type : Type :=
| missing | string_type | int_type | int_parsing | int_parsing_size
| int_from_float | list_type | extra_forbidden.

(** The errors of the integer validator. *)
Inductive int_error : Type :=
| IntParsing | IntParsingSize | IntType | IntFromFloat.

Definition int_error_type (e : int_error) : error_type :=
  match e with
  | IntParsing => int_parsing
  | IntParsingSize => int_parsing_size
  | IntType => int_type
  | IntFromFloat => int_from_float
  end.

Record ErrorDetails : Type := mkError {
  loc : list loc_item;
  type : error_type
}.

Inductive source : Type := EnvSettingsSource | DotEnvSettingsSource.

Inductive exn : Type :=
| SettingsError (field_name : string) (src : source)
| ValidationError (errors : list ErrorDetails).

(** [str(exc)], line by line.  For a [ValidationError] the header is
    followed, per error, by the dotted location and the indented message;
    the bracketed details pydantic appends to the message line (input value,
    input type) and the documentation link are left out. *)
Definition str_of_nat (n : nat) : string :=
  NilEmpty.string_of_uint (Nat.to_uint n).

Definition loc_item_str (l : loc_item) : string :=
  match l with
  | LocKey k => k
  | LocIndex i => str_of_nat i
  end.

Definition error_type_name (t : error_type) : string :=
  match t with
  | missing => "missing"
  | string_type => "string_type"
  | int_type => "int_type"
  | int_parsing => "int_parsing"
  | int_parsing_size => "int_parsing_size"
  | int_from_float => "int_from_float"
  | list_type => "list_type"
  | extra_forbidden => "extra_forbidden"
  end.

Definition error_msg (t : error_type) : string :=
  match t with
  | missing => "Field required"
  | string_type => "Input should be a valid string"
  | int_type => "Input should be a valid integer"
  | int_parsing =>
      "Input should be a valid integer, unable to parse string as an integer"
  | int_parsing_size =>
      "Unable to parse input string as an integer, exceeded maximum size"
  | int_from_float =>
      "Input should be a valid integer, got a number with a fractional part"
  | list_type => "Input should be a valid list"
  | extra_forbidden => "Extra inputs are not permitted"
  end.

Definition error_lines (e : ErrorDetails) : list string :=
  [ join "." (map loc_item_str (loc e));
    "  " ++ error_msg (type e) ++ " [type=" ++ error_type_name (type e) ++ "]" ].

Definition source_name (src : source) : string :=
  match src with
  | EnvSettingsSource => "EnvSettingsSource"
  | DotEnvSettingsSource => "DotEnvSettingsSource"
  end.

Definition exn_lines (e : exn) : list string :=
  match e with
  | SettingsError field_name src =>
      [ "error parsing value for field " ++ quoted field_name
        ++ " from source " ++ quoted (source_name src) ]
  | ValidationError errors =>
      (str_of_nat (List.length errors)
       ++ (if Nat.eqb (List.length errors) 1
           then " validation error for Settings"
           else " validation errors for Settings"))
      :: flat_map error_lines errors
  end.

Inductive outcome (A : Type) : Type :=
| Returns (a : A)
| Raises (e : exn).
Arguments Returns {A}.
Arguments Raises {A}.

Definition bind {A B} (m : outcome A) (k : A -> outcome B) : outcome B :=
  match m with
  | Returns a => k a
  | Raises e => Raises e
  end.

Notation "x <- m ;; k" := (bind m (fun x => k))
  (at level 61, m at next level, right associativity).

(** The inputs of a construction: the process environment ([os.environ],
    in the order of the environment block) and the parsed [.env] file
    ([dotenv_values]: a key written without [=] has no value); [None] when
    the file does not exist. *)
Definition environ := list (string * string).
Definition dotenv := option (list (string * option string)).

(** ** The settings sources and the validation of the merged state *)

(** The decimal text of an integer: [str(n)]. *)
Definition int_text (n : Z) : string := NilZero.string_of_int (Z.to_int n).

(** The integer a canonical decimal text stands for: digits, after a
    minus sign for a negative number, without leading zeros, spaces,
    underscores or a plus sign. *)
Definition decimal_value (s : string) : option Z :=
  match NilZero.int_of_string s with
  | Some d =>
      let z := Z.of_int d in
      if (s =? int_text z)%string then Some z else None
  | None => None
  end.

(** The number of digits of a decimal text, its sign left out. *)
Definition digit_count (s : string) : nat :=
  match s with
  | String "-"%char r => String.length r
  | _ => String.length s
  end.

Definition is_complex (a : annotation) : bool :=
  match a with Tlist_str => true | _ => false end.

Definition field_names : list string := map fst model_fields.

Section Loader.

(** [str.lower] on a text that is not ASCII: the Unicode case mapping. *)
Variable unicode_lower : string -> string.

(** [json.loads] as [decode_complex_value] calls it: [None] stands for the
    [ValueError] of a text that is not JSON. *)
Variable json_loads : string -> option pyobj.

(** pydantic's integer validator in lax mode on an input that is no
    canonical decimal text. *)
Variable int_other : pyobj -> int_error + Z.

(** [str.lower] *)
Definition str_lower (s : string) : string :=
  if is_ascii s then ascii_lower s else unicode_lower s.

(** [parse_env_vars]: with [case_sensitive=False] every name is
    lower-cased before it becomes a key. *)
Definition parse_env_vars {V} (items : list (string * V)) : dict V :=
  dict_of_items
    (map (fun kv =>
            ((if case_sensitive model_config then fst kv
              else str_lower (fst kv)),
             snd kv))
         items).

(** The name a field is looked up under (no [env_prefix], no alias). *)
Definition field_env_name (field_name : string) : string :=
  if case_sensitive model_config then field_name else str_lower field_name.

(** The variables the environment source reads: [os.environ]. *)
Definition environ_vars (env : environ) : dict (option string) :=
  parse_env_vars (map (fun kv => (fst kv, Some (snd kv))) env).

(** The variables the dotenv source reads: the [.env] file when it exists. *)
Definition dotenv_vars (file : dotenv) : dict (option string) :=
  match file with
  | None => []
  | Some items => parse_env_vars items
  end.

(** The text a source holds for a field, if any. *)
Definition get_field_value (env_vars : dict (option string))
    (field_name : string) : option string :=
  match dict_get (field_env_name field_name) env_vars with
  | Some v => v
  | None => None
  end.

(** [prepare_field_value]: a complex field is decoded as JSON, another
    field keeps its text.  [None] is the [ValueError] of the decoder;
    [PyNone] is Python's [None]: no text, or the JSON text [null]. *)
Definition prepare_field_value (a : annotation) (v : option string)
  : option pyobj :=
  match v with
  | None => Some PyNone
  | Some raw => if is_complex a then json_loads raw else Some (PyStr raw)
  end.

(** [PydanticBaseEnvSettingsSource.__call__]: the loop over the fields.  A
    prepared value that is [None] adds no entry. *)
Fixpoint source_fields (src : source) (env_vars : dict (option string))
    (fields : list (string * (annotation * option value)))
    (data : dict pyobj) : outcome (dict pyobj) :=
  match fields with
  | [] => Returns data
  | (field_name, (a, _)) :: rest =>
      match prepare_field_value a (get_field_value env_vars field_name) with
      | None => Raises (SettingsError field_name src)
      | Some PyNone => source_fields src env_vars rest data
      | Some v => source_fields src env_vars rest (dict_set field_name v data)
      end
  end.

Definition env_settings (env : environ) : outcome (dict pyobj) :=
  source_fields EnvSettingsSource (environ_vars env) model_fields [].

(** A key of the file counts as used when it is the name of a field: no
    [env_nested_delimiter] is configured, so no other key belongs to a
    field. *)
Definition env_used (env_name : string) : bool :=
  existsb (fun f => (env_name =? field_env_name (fst f))%string) model_fields.

(** [DotEnvSettingsSource.__call__], second half: every other key of the
    file that has a non-empty value is added to the state as it is. *)
Definition dotenv_extra (env_vars : dict (option string))
    (data : dict pyobj) : dict pyobj :=
  fold_left
    (fun data kv =>
       match snd kv with
       | None => data
       | Some v =>
           if (v =? "")%string || dict_mem (fst kv) data || env_used (fst kv)
           then data
           else dict_set (fst kv) (PyStr v) data
       end)
    env_vars data.

Definition dotenv_settings (file : dotenv) : outcome (dict pyobj) :=
  data <- source_fields DotEnvSettingsSource (dotenv_vars file)
            model_fields [] ;;
  Returns (dotenv_extra (dotenv_vars file) data).

(** [_settings_build_values]: the sources are called in the order
    environment, dotenv; an earlier source has priority. *)
Definition settings_build_values (env : environ) (file : dotenv)
  : outcome (dict pyobj) :=
  env_state <- env_settings env ;;
  dotenv_state <- dotenv_settings file ;;
  Returns (deep_update dotenv_state env_state).

(** *** Validators *)

Definition validated (A : Type) : Type := (list ErrorDetails + A)%type.

Definition errors_of {A} (r : validated A) : list ErrorDetails :=
  match r with inl e => e | inr _ => [] end.

Definition str_validator (l : list loc_item) (v : pyobj) : validated string :=
  match v with
  | PyStr s => inr s
  | _ => inl [mkError l string_type]
  end.

(** The integer validator in lax mode.  A canonical decimal text of at
    most 4300 characters is read as the integer it stands for, without a
    range; one of more than 4300 digits is refused for its size. *)
Definition int_validator (v : pyobj) : int_error + Z :=
  match v with
  | PyStr s =>
      match decimal_value s with
      | Some z =>
          if (String.length s <=? 4300)%nat then inr z
          else if (4300 <? digit_count s)%nat then inl IntParsingSize
          else int_other v
      | None => int_other v
      end
  | _ => int_other v
  end.

Definition int_field_validator (l : list loc_item) (v : pyobj) : validated Z :=
  match int_validator v with
  | inr z => inr z
  | inl e => inl [mkError l (int_error_type e)]
  end.

Fixpoint validate_items (l : list loc_item) (i : nat) (items : list pyobj)
  : validated (list string) :=
  match items with
  | [] => inr []
  | x :: rest =>
      match str_validator (l ++ [LocIndex i])%list x,
            validate_items l (S i) rest with
      | inr s, inr ss => inr (s :: ss)
      | r, rs => inl (errors_of r ++ errors_of rs)%list
      end
  end.

Definition list_str_validator (l : list loc_item) (v : pyobj)
  : validated (list string) :=
  match v with
  | PyList items => validate_items l 0 items
  | _ => inl [mkError l list_type]
  end.

(** One field: the value of the state, else the default, else [missing]. *)
Definition validate_field {A}
    (validator : list loc_item -> pyobj -> validated A)
    (f : Field A) (state : dict pyobj) : validated A :=
  match dict_get (name f) state with
  | Some v => validator [LocKey (name f)] v
  | None =>
      match default f with
      | Some d => inr d
      | None => inl [mkError [LocKey (name f)] missing]
      end
  end.

(** Keys of the state that are no field: refused under [extra='forbid']. *)
Definition extra_errors (state : dict pyobj) : list ErrorDetails :=
  match extra model_config with
  | ExtraForbid =>
      map (fun kv => mkError [LocKey (fst kv)] extra_forbidden)
        (filter (fun kv => negb (dict_mem (fst kv) model_fields)) state)
  | _ => []
  end.

Definition model_validate (state : dict pyobj) : validated Settings :=
  let r1 := validate_field str_validator f_database_url state in
  let r2 := validate_field str_validator f_api_host state in
  let r3 := validate_field int_field_validator f_api_port state in
  let r4 := validate_field list_str_validator f_cors_origins state in
  let r5 := validate_field str_validator f_secret_key state in
  let r6 := validate_field str_validator f_algorithm state in
  let r7 := validate_field int_field_validator
              f_access_token_expire_minutes state in
  let ex := extra_errors state in
  match r1, r2, r3, r4, r5, r6, r7, ex with
  | inr v1, inr v2, inr v3, inr v4, inr v5, inr v6, inr v7, [] =>
      inr (mkSettings v1 v2 v3 v4 v5 v6 v7)
  | _, _, _, _, _, _, _, _ =>
      inl (errors_of r1 ++ errors_of r2 ++ errors_of r3 ++ errors_of r4
           ++ errors_of r5 ++ errors_of r6 ++ errors_of r7 ++ ex)%list
  end.

(** [Settings()] (config.py, line 25). *)
Definition Settings_new (env : environ) (file : dotenv) : outcome Settings :=
  state <- settings_build_values env file ;;
  match model_validate state with
  | inr s => Returns s
  | inl errs => Raises (ValidationError errs)
  end.

(** The entry a source contributes to the state for a field. *)
Definition source_value (env_vars : dict (option string))
    (field_name : string) (a : annotation) : option pyobj :=
  match prepare_field_value a (get_field_value env_vars field_name) with
  | None | Some PyNone => None
  | Some v => Some v
  end.

(** *** What the inputs supply

    The notions the properties below are stated with.  They are read off
    the inputs alone, not off the sources above. *)

(** The value of the last entry whose lower-cased name is [n]. *)
Definition last_casing {V} (n : string) (items : list (string * V))
  : option V :=
  fold_left
    (fun found kv =>
       if (str_lower (fst kv) =? n)%string then Some (snd kv) else found)
    items None.

(** The text the process environment gives the name [n]. *)
Definition env_text (env : environ) (n : string) : option string :=
  last_casing n env.

(** The text the [.env] file gives the name [n]: none when there is no
    file, no such key, or a key without a value. *)
Definition file_text (file : dotenv) (n : string) : option string :=
  match file with
  | None => None
  | Some items =>
      match last_casing n items with
      | Some v => v
      | None => None
      end
  end.

(** The text that counts as a value for a field of annotation [a]: for a
    complex field the JSON text [null] supplies nothing. *)
Definition supplied (a : annotation) (text : option string) : option string :=
  match text with
  | Some raw =>
      if is_complex a
      then match json_loads raw with
           | Some PyNone => None
           | _ => Some raw
           end
      else Some raw
  | None => None
  end.

(** The value a text stands for at a field of annotation [a]: the text
    itself, the integer the validator reads, the JSON list of strings. *)
Definition text_denotes (a : annotation) (raw : string) (v : value) : Prop :=
  match a, v with
  | Tstr, VStr s => s = raw
  | Tint, VInt z => int_validator (PyStr raw) = inr z
  | Tlist_str, VList xs => json_loads raw = Some (PyList (map PyStr xs))
  | _, _ => False
  end.

(** The [.env] file supplies no field and holds no other key with a
    non-empty value. *)
Definition file_silent (file : dotenv) : Prop :=
  (forall n, In n field_names -> file_text file n = None) /\
  (forall items k v,
      file = Some items -> In (k, Some v) items ->
      v = "" \/ In (str_lower k) field_names).

End Loader.

(** ** Reference decoders

    Concrete instances of the abstract library functions, used to run the
    loader on concrete inputs: [ascii_lower] for [unicode_lower] (the inputs of the
    runs are ASCII), [ref_json_loads], which decodes the JSON fragment
    without fractions, exponents and [\u] escapes, and [ref_int_other]. *)

Definition is_ws (c : ascii) : bool :=
  match nat_of_ascii c with
  | 32 | 9 | 10 | 13 => true
  | _ => false
  end.

Fixpoint skip_ws (s : string) : string :=
  match s with
  | String c r => if is_ws c then skip_ws r else s
  | EmptyString => s
  end.

Fixpoint strip_prefix (p s : string) : option string :=
  match p, s with
  | EmptyString, _ => Some s
  | String a p', String b s' => if Ascii.eqb a b then strip_prefix p' s' else None
  | String _ _, EmptyString => None
  end.

Definition digit_of (c : ascii) : option Z :=
  let n := nat_of_ascii c in
  if (48 <=? n)%nat && (n <=? 57)%nat then Some (Z.of_nat (n - 48)) else None.

Fixpoint digits (acc : Z) (s : string) : Z * string :=
  match s with
  | String c r =>
      match digit_of c with
      | Some d => digits (10 * acc + d)%Z r
      | None => (acc, s)
      end
  | EmptyString => (acc, s)
  end.

(** An unsigned decimal numeral at the head of [s]. *)
Definition numeral (s : string) : option (Z * string) :=
  match s with
  | String c r =>
      match digit_of c with
      | Some d => Some (digits d r)
      | None => None
      end
  | EmptyString => None
  end.

Definition unescape (c : ascii) : option ascii :=
  if Ascii.eqb c dquote then Some dquote else
  match c with
  | "\"%char => Some "\"%char
  | "/"%char => Some "/"%char
  | "b"%char => Some (ascii_of_nat 8)
  | "f"%char => Some (ascii_of_nat 12)
  | "n"%char => Some (ascii_of_nat 10)
  | "r"%char => Some (ascii_of_nat 13)
  | "t"%char => Some (ascii_of_nat 9)
  | _ => None
  end.

(** The body of a string literal, after its opening quote. *)
Fixpoint string_body (s : string) : option (string * string) :=
  match s with
  | EmptyString => None
  | String c r =>
      if Ascii.eqb c dquote then Some ("", r)
      else if Ascii.eqb c "\"%char then
        match r with
        | String e r' =>
            match unescape e, string_body r' with
            | Some ch, Some (body, rest) => Some (String ch body, rest)
            | _, _ => None
            end
        | EmptyString => None
        end
      else if (nat_of_ascii c <? 32)%nat then None
      else match string_body r with
           | Some (body, rest) => Some (String c body, rest)
           | None => None
           end
  end.

Definition json_number (s : string) : option (pyobj * string) :=
  let signed := match s with
                | String "-"%char r => (true, r)
                | _ => (false, s)
                end in
  match numeral (snd signed) with
  | Some (n, rest) =>
      match rest with
      | String "."%char _ | String "e"%char _ | String "E"%char _ => None
      | _ => Some (PyInt (if fst signed then - n else n)%Z, rest)
      end
  | None => None
  end.

Fixpoint json_value (fuel : nat) (s : string) : option (pyobj * string) :=
  match fuel with
  | O => None
  | S fuel' =>
      match skip_ws s with
      | EmptyString => None
      | String c r =>
          if Ascii.eqb c "["%char then
            match skip_ws r with
            | String "]"%char r' => Some (PyList [], r')
            | _ => match json_elements fuel' r with
                   | Some (vs, r') => Some (PyList vs, r')
                   | None => None
                   end
            end
          else if Ascii.eqb c "{"%char then
            match skip_ws r with
            | String "}"%char r' => Some (PyDict [], r')
            | _ => match json_members fuel' r [] with
                   | Some (d, r') => Some (PyDict d, r')
                   | None => None
                   end
            end
          else if Ascii.eqb c dquote then
            match string_body r with
            | Some (body, r') => Some (PyStr body, r')
            | None => None
            end
          else
            match strip_prefix "true" (String c r),
                  strip_prefix "false" (String c r),
                  strip_prefix "null" (String c r) with
            | Some r', _, _ => Some (PyBool true, r')
            | _, Some r', _ => Some (PyBool false, r')
            | _, _, Some r' => Some (PyNone, r')
            | _, _, _ => json_number (String c r)
            end
      end
  end
with json_elements (fuel : nat) (s : string) : option (list pyobj * string) :=
  match fuel with
  | O => None
  | S fuel' =>
      match json_value fuel' s with
      | Some (v, r) =>
          match skip_ws r with
          | String ","%char r' =>
              match json_elements fuel' r' with
              | Some (vs, r'') => Some (v :: vs, r'')
              | None => None
              end
          | String "]"%char r' => Some ([v], r')
          | _ => None
          end
      | None => None
      end
  end
with json_members (fuel : nat) (s : string) (acc : dict pyobj)
  : option (dict pyobj * string) :=
  match fuel with
  | O => None
  | S fuel' =>
      match skip_ws s with
      | String q r =>
          match (if Ascii.eqb q dquote then string_body r else None) with
          | Some (key, r1) =>
              match skip_ws r1 with
              | String ":"%char r2 =>
                  match json_value fuel' r2 with
                  | Some (v, r3) =>
                      match skip_ws r3 with
                      | String ","%char r4 =>
                          json_members fuel' r4 (dict_set key v acc)
                      | String "}"%char r4 => Some (dict_set key v acc, r4)
                      | _ => None
                      end
                  | None => None
                  end
              | _ => None
              end
          | None => None
          end
      | _ => None
      end
  end.

Definition ref_json_loads (s : string) : option pyobj :=
  match json_value (2 * String.length s + 2) s with
  | Some (v, rest) =>
      match skip_ws rest with
      | EmptyString => Some v
      | _ => None
      end
  | None => None
  end.

(** A reference instance of [int_other]: integers and booleans pass, any
    other input is refused. *)
Definition ref_int_other (v : pyobj) : int_error + Z :=
  match v with
  | PyInt z => inr z
  | PyBool b => inr (Z.b2z b)
  | PyStr _ => inl IntParsing
  | _ => inl IntType
  end.

(** The decimal text of ten to the power 4300: a one followed by 4300
    zeros, 4301 digits in all. *)
Definition ten_pow_4300 : string :=
  String "1" (string_of_list_ascii (repeat "0"%char 4300)).

(** ** The HTTP application (main.py)

    The application object, its middleware list and its route table are
    the program's; how Starlette's CORS middleware builds a preflight
    response and which headers it adds to a simple response are kept
    abstract, and so are the bodies of the documentation routes that
    [FastAPI(...)] installs by default. *)

Record Request : Type := {
  method : string;
  path : string;
  query_string : string;
  headers : list (string * string);
  body : string
}.

Inductive content : Type :=
| JSONContent (v : pyobj)
| TextContent (s : string).

Record Response : Type := mkResponse {
  status_code : Z;
  response_headers : list (string * string);
  response_content : content
}.

(** [Headers.get(name)]: header names compare without case. *)
Fixpoint header_get (n : string) (hs : list (string * string)) : option string :=
  match hs with
  | [] => None
  | (k, v) :: r =>
      if (ascii_lower k =? ascii_lower n)%string then Some v else header_get n r
  end.

(** The keyword arguments of [CORSMiddleware] given at main.py lines 12-15;
    the others keep their defaults. *)
Record CORSMiddleware : Type := {
  allow_origins : list string;
  allow_credentials : bool;
  allow_methods : list string;
  allow_headers : list string
}.

Inductive Middleware : Type :=
| Middleware_CORS (options : CORSMiddleware).

Record Route : Type := mkRoute {
  route_path : string;
  route_methods : list string;
  endpoint : Request -> Response
}.

Record FastAPI : Type := mkApp {
  title : string;
  version : string;
  user_middleware : list Middleware;
  routes : list Route
}.

(** main.py lines 18-24: the two handlers take no argument. *)
Definition read_root (_ : unit) : pyobj :=
  PyDict [("message", PyStr "Hello World!")].

Definition read_health_status (_ : unit) : pyobj :=
  PyDict [("status", PyStr "healthy")].

(** [app.add_middleware(cls, **options)]: inserted at the front. *)
Definition add_middleware (app : FastAPI) (m : Middleware) : FastAPI :=
  mkApp (title app) (version app) (m :: user_middleware app) (routes app).

(** [@app.get(path)] on a function without parameters: the route answers
    [GET] only, calls the function with nothing taken from the request and
    sends its result as a JSON response with status 200. *)
Definition get (app : FastAPI) (p : string) (f : unit -> pyobj) : FastAPI :=
  mkApp (title app) (version app) (user_middleware app)
    (routes app
     ++ [mkRoute p ["GET"] (fun _ => mkResponse 200 [] (JSONContent (f tt)))])%list.

Inductive route_match : Type := MatchNone | MatchPartial | MatchFull.

(** [path_regex.match(path)] for a route path without parameters: the
    regex is the escaped path between [^] and [$], and [$] also matches
    before a newline that ends the text. *)
Definition path_match (route_path p : string) : bool :=
  (p =? route_path)%string
  || (p =? route_path ++ String (ascii_of_nat 10) "")%string.

(** [Route.matches] *)
Definition matches (r : Route) (m p : string) : route_match :=
  if path_match (route_path r) p
  then if existsb (String.eqb m) (route_methods r) then MatchFull
       else MatchPartial
  else MatchNone.

Fixpoint drop_slashes (rev_p : list ascii) : list ascii :=
  match rev_p with
  | "/"%char :: r => drop_slashes r
  | _ => rev_p
  end.

(** [p.rstrip("/")] *)
Definition rstrip_slash (p : string) : string :=
  string_of_list_ascii (rev (drop_slashes (rev (list_ascii_of_string p)))).

Definition endswith_slash (p : string) : bool :=
  match rev (list_ascii_of_string p) with
  | "/"%char :: _ => true
  | _ => false
  end.

Inductive found : Type :=
| FoundFull (r : Route)
| FoundPartial (r : Route)
| NotFound.

(** The first route that matches fully, else the first that matches the
    path only. *)
Fixpoint find_route (rs : list Route) (m p : string) (partial : option Route)
  : found :=
  match rs with
  | [] => match partial with Some r => FoundPartial r | None => NotFound end
  | r :: rest =>
      match matches r m p with
      | MatchFull => FoundFull r
      | MatchPartial =>
          find_route rest m p
            (match partial with Some _ => partial | None => Some r end)
      | MatchNone => find_route rest m p partial
      end
  end.

Definition http_exception (status : Z) (detail : string)
    (hs : list (string * string)) : Response :=
  mkResponse status hs (JSONContent (PyDict [("detail", PyStr detail)])).

(** [Router.app]: dispatch on the routes, then [redirect_slashes], then
    404.  The redirect's [location] is given as path and query only. *)
Definition router (rs : list Route) (req : Request) : Response :=
  match find_route rs (method req) (path req) None with
  | FoundFull r => endpoint r req
  | FoundPartial r =>
      http_exception 405 "Method Not Allowed"
        [("allow", join ", " (route_methods r))]
  | NotFound =>
      let redirect_path :=
        if endswith_slash (path req) then rstrip_slash (path req)
        else path req ++ "/" in
      if negb (path req =? "/")%string
         && existsb
              (fun r =>
                 match matches r (method req) redirect_path with
                 | MatchNone => false
                 | _ => true
                 end) rs
      then mkResponse 307
             [("location",
               redirect_path
               ++ (if (query_string req =? "")%string then ""
                   else "?" ++ query_string req))]
             (TextContent "")
      else http_exception 404 "Not Found" []
  end.

Section Application.

(** Starlette's [CORSMiddleware.preflight_response]. *)
Variable preflight_response :
  CORSMiddleware -> list (string * string) -> Response.

(** The headers [CORSMiddleware.simple_response] adds to the response of
    the wrapped application, from the options and the request headers. *)
Variable simple_headers :
  CORSMiddleware -> list (string * string) -> list (string * string).

(** The endpoints of the documentation routes, by path. *)
Variable docs_endpoint : string -> Request -> Response.

(** [CORSMiddleware.__call__] *)
Definition cors_call (options : CORSMiddleware) (app : Request -> Response)
    (req : Request) : Response :=
  match header_get "origin" (headers req) with
  | None => app req
  | Some _ =>
      if (method req =? "OPTIONS")%string
         && (match header_get "access-control-request-method" (headers req) with
             | Some _ => true
             | None => false
             end)
      then preflight_response options (headers req)
      else
        let r := app req in
        mkResponse (status_code r)
          (response_headers r ++ simple_headers options (headers req))%list
          (response_content r)
  end.

Definition middleware_call (m : Middleware) (app : Request -> Response)
  : Request -> Response :=
  match m with
  | Middleware_CORS options => cors_call options app
  end.

(** [FastAPI(title=..., version=...)]: no user middleware, and the routes
    of the OpenAPI schema and of the two documentation pages. *)
Definition FastAPI_new (title version : string) : FastAPI :=
  mkApp title version []
    (map (fun p => mkRoute p ["GET"; "HEAD"] (docs_endpoint p))
       ["/openapi.json"; "/docs"; "/docs/oauth2-redirect"; "/redoc"]).

(** [build_middleware_stack] and the call of the stack: the first entry
    of [user_middleware] is the outermost layer around the router. *)
Definition app_call (app : FastAPI) : Request -> Response :=
  fold_right middleware_call (router (routes app)) (user_middleware app).

(** The body of main.py, given the [settings] object it imports. *)
Definition main (settings : Settings) : FastAPI :=
  let app := FastAPI_new "CMS API" "0.1.0" in
  let app :=
    add_middleware app
      (Middleware_CORS
         {| allow_origins := cors_origins settings;
            allow_credentials := true;
            allow_methods := ["*"];
            allow_headers := ["*"] |}) in
  let app := get app "/" read_root in
  let app := get app "/health" read_health_status in
  app.

End Application.

(** ** The test session (tests/conftest.py) *)

(** [os.environ.setdefault(k, v)]: an existing key keeps its value. *)
Definition setdefault (k v : string) (env : environ) : environ :=
  match dict_get k env with
  | Some _ => env
  | None => dict_set k v env
  end.

(** conftest.py line 6, run before the application is imported. *)
Definition conftest_environ (env : environ) : environ :=
  setdefault "SECRET_KEY" "test-secret-key-for-pytest" env.

(** The path [redirect_slashes] tries when no route matches: the request
    path with its trailing slashes removed, or with one added. *)
Definition slash_toggled (p : string) : string :=
  if endswith_slash p then rstrip_slash p else p ++ "/".

(** The paths of the application's routes: the four documentation routes
    of [FastAPI(...)] and the two declared in main.py. *)
Definition route_paths : list string :=
  ["/openapi.json"; "/docs"; "/docs/oauth2-redirect"; "/redoc"; "/"; "/health"].

(** A CORS preflight request: the only kind the middleware answers
    itself. *)
Definition is_preflight (req : Request) : bool :=
  match header_get "origin" (headers req) with
  | None => false
  | Some _ =>
      (method req =? "OPTIONS")%string
      && match header_get "access-control-request-method" (headers req) with
         | Some _ => true
         | None => false
         end
  end.

(** * Properties *)

(** ** Dictionaries *)

Lemma dict_get_set {V} (k k' : string) (v : V) (d : dict V) :
  dict_get k' (dict_set k v d) = if (k' =? k)%string then Some v else dict_get k' d.
Proof.
  induction d as [|[k0 v0] d IH]; simpl.
  - destruct (k' =? k)%string; reflexivity.
  - destruct (k =? k0)%string eqn:E; simpl.
    + apply String.eqb_eq in E; subst k0.
      destruct (k' =? k)%string; reflexivity.
    + destruct (k' =? k0)%string eqn:E'.
      * apply String.eqb_eq in E'; subst k0.
        rewrite String.eqb_sym, E. reflexivity.
      * exact IH.
Qed.

Lemma dict_get_None {V} (k : string) (d : dict V) :
  dict_get k d = None <-> ~ In k (map fst d).
Proof.
  induction d as [|[k0 v0] d IH]; simpl.
  - tauto.
  - destruct (k =? k0)%string eqn:E.
    + apply String.eqb_eq in E. split; [discriminate | intros H; exfalso; auto].
    + apply String.eqb_neq in E. rewrite IH. split.
      * intros H [H1 | H1]; [congruence | auto].
      * intros H H1; apply H; auto.
Qed.

Lemma dict_get_In {V} (k : string) (v : V) (d : dict V) :
  dict_get k d = Some v -> In (k, v) d.
Proof.
  induction d as [|[k0 v0] d IH]; simpl; [discriminate|].
  destruct (k =? k0)%string eqn:E.
  - apply String.eqb_eq in E. intros H; inversion H; subst; auto.
  - auto.
Qed.

Lemma dict_set_keys {V} (k x : string) (v : V) (d : dict V) :
  In x (map fst (dict_set k v d)) <-> x = k \/ In x (map fst d).
Proof.
  induction d as [|[k0 v0] d IH]; simpl.
  - intuition.
  - destruct (k =? k0)%string eqn:E; simpl.
    + apply String.eqb_eq in E; subst k0. intuition.
    + rewrite IH. intuition.
Qed.

Lemma dict_set_NoDup {V} (k : string) (v : V) (d : dict V) :
  NoDup (map fst d) -> NoDup (map fst (dict_set k v d)).
Proof.
  induction d as [|[k0 v0] d IH]; simpl; intros H.
  - constructor; [simpl; tauto | constructor].
  - inversion H as [|? ? Hn Hd]; subst.
    destruct (k =? k0)%string eqn:E; simpl.
    + constructor; assumption.
    + constructor; [|auto].
      rewrite dict_set_keys. apply String.eqb_neq in E.
      intros [H1 | H1]; [congruence | contradiction].
Qed.

(** [deep_update] key by key, when the keys of [updating] are distinct. *)
Lemma deep_update_get (updating mapping : dict pyobj) (k : string) :
  NoDup (map fst updating) ->
  dict_get k (deep_update mapping updating) =
  match dict_get k updating with
  | Some v =>
      Some (match dict_get k mapping with
            | Some o => deep_update_value o v
            | None => v
            end)
  | None => dict_get k mapping
  end.
Proof.
  unfold deep_update. revert mapping.
  induction updating as [|[k0 v0] u IH]; intros mapping Hnd; simpl.
  - reflexivity.
  - inversion Hnd as [|? ? Hn Hd]; subst.
    rewrite (IH _ Hd). rewrite dict_get_set.
    destruct (k =? k0)%string eqn:E.
    + apply String.eqb_eq in E; subst k0.
      apply dict_get_None in Hn. rewrite Hn. reflexivity.
    + reflexivity.
Qed.

Lemma deep_update_value_cases (o v : pyobj) :
  deep_update_value o v = v \/
  exists d u, o = PyDict d /\ v = PyDict u /\
              exists m, deep_update_value o v = PyDict m.
Proof.
  destruct v; try (left; destruct o; reflexivity).
  destruct o; try (left; reflexivity).
  right. do 2 eexists. split; [reflexivity|]. split; [reflexivity|].
  simpl. eexists. reflexivity.
Qed.


(** ** The inputs and the variables of the sources *)

Lemma fold_set_get {V} (items : list (string * V)) :
  forall (d : dict V) (n : string),
    dict_get n (fold_left (fun d kv => dict_set (fst kv) (snd kv) d) items d) =
    fold_left (fun acc kv => if (n =? fst kv)%string then Some (snd kv) else acc)
      items (dict_get n d).
Proof.
  induction items as [|kv items IH]; intros d n; simpl; [reflexivity|].
  rewrite IH, dict_get_set. reflexivity.
Qed.

Lemma fold_left_map {A B C} (f : A -> B -> A) (g : C -> B) (l : list C) :
  forall a, fold_left f (map g l) a = fold_left (fun a x => f a (g x)) l a.
Proof.
  induction l as [|x l IH]; intros a; simpl; [reflexivity | apply IH].
Qed.

Lemma fold_left_ext {A B} (f g : A -> B -> A) (l : list B) :
  (forall a x, f a x = g a x) ->
  forall a, fold_left f l a = fold_left g l a.
Proof.
  intros H. induction l as [|x l IH]; intros a; simpl; [reflexivity|].
  rewrite H. apply IH.
Qed.

Lemma dict_set_In {V} (k : string) (v : V) (d : dict V) :
  In (k, v) (dict_set k v d).
Proof.
  induction d as [|[k0 v0] d IH]; simpl; [auto|].
  destruct (k =? k0)%string eqn:E.
  - apply String.eqb_eq in E; subst. left; reflexivity.
  - right; exact IH.
Qed.

(** The decimal text of an integer is canonical. *)
Lemma decimal_value_int_text (n : Z) : decimal_value (int_text n) = Some n.
Proof.
  unfold decimal_value, int_text.
  rewrite NilZero.isi.
  - rewrite DecimalZ.of_to, String.eqb_refl. reflexivity.
  - destruct n; simpl; try discriminate.
    intros H; inversion H as [H1].
    exact (DecimalPos.Unsigned.to_uint_nonnil _ H1).
  - destruct n; simpl; try discriminate.
    intros H; inversion H as [H1].
    exact (DecimalPos.Unsigned.to_uint_nonnil _ H1).
Qed.

(** A text that reads as a normalised decimal number is canonical. *)
Lemma decimal_value_norm (s : string) (d : Decimal.signed_int) :
  NilZero.int_of_string s = Some d -> Decimal.norm d = d ->
  decimal_value s = Some (Z.of_int d).
Proof.
  intros Hs Hn. unfold decimal_value, int_text.
  rewrite Hs, DecimalZ.to_of, Hn, (NilZero.sis _ _ Hs), String.eqb_refl.
  reflexivity.
Qed.

Section LoaderFacts.

Variable unicode_lower : string -> string.
Variable json_loads : string -> option pyobj.
Variable int_other : pyobj -> int_error + Z.

Local Abbreviation str_lower := (str_lower unicode_lower).
Local Abbreviation parse_env_vars := (parse_env_vars unicode_lower).
Local Abbreviation field_env_name := (field_env_name unicode_lower).
Local Abbreviation environ_vars := (environ_vars unicode_lower).
Local Abbreviation dotenv_vars := (dotenv_vars unicode_lower).
Local Abbreviation get_field_value := (get_field_value unicode_lower).
Local Abbreviation prepare_field_value := (prepare_field_value json_loads).
Local Abbreviation source_fields := (source_fields unicode_lower json_loads).
Local Abbreviation source_value := (source_value unicode_lower json_loads).
Local Abbreviation env_settings := (env_settings unicode_lower json_loads).
Local Abbreviation env_used := (env_used unicode_lower).
Local Abbreviation dotenv_extra := (dotenv_extra unicode_lower).
Local Abbreviation dotenv_settings := (dotenv_settings unicode_lower json_loads).
Local Abbreviation settings_build_values :=
  (settings_build_values unicode_lower json_loads).
Local Abbreviation int_validator := (int_validator int_other).
Local Abbreviation int_field_validator := (int_field_validator int_other).
Local Abbreviation model_validate := (model_validate int_other).
Local Abbreviation Settings_new :=
  (Settings_new unicode_lower json_loads int_other).
Local Abbreviation last_casing := (last_casing unicode_lower).
Local Abbreviation env_text := (env_text unicode_lower).
Local Abbreviation file_text := (file_text unicode_lower).
Local Abbreviation supplied := (supplied json_loads).
Local Abbreviation text_denotes := (text_denotes json_loads int_other).
Local Abbreviation file_silent := (file_silent unicode_lower).

Lemma model_fields_NoDup : NoDup (map fst model_fields).
Proof.
  unfold model_fields; simpl.
  repeat (constructor; [simpl; intuition discriminate|]). constructor.
Qed.

Lemma field_name_lower (n : string) (a : annotation) (d : option value) :
  In (n, (a, d)) model_fields ->
  str_lower n = n /\ dict_mem n model_fields = true.
Proof.
  unfold model_fields; simpl.
  intros H;
    repeat (destruct H as [H | H]; [inversion H; split; reflexivity|]).
  contradiction.
Qed.

Lemma field_names_In (n : string) :
  In n field_names <-> exists a d, In (n, (a, d)) model_fields.
Proof.
  unfold field_names. rewrite in_map_iff. split.
  - intros ([n' [a d]] & <- & H). exists a, d. exact H.
  - intros (a & d & H). exists (n, (a, d)). auto.
Qed.

Lemma field_names_mem (n : string) :
  In n field_names <-> dict_mem n model_fields = true.
Proof.
  unfold dict_mem. split.
  - intros H. apply field_names_In in H. destruct H as (a & d & H).
    destruct (field_name_lower _ _ _ H) as [_ Hm]. exact Hm.
  - destruct (dict_get n model_fields) as [[a d]|] eqn:E; [|discriminate].
    intros _. apply field_names_In. exists a, d. apply dict_get_In. exact E.
Qed.

(** The variables of a source, key by key: the last entry of the input
    whose lower-cased name is the key. *)
Lemma parse_env_vars_get {V} (items : list (string * V)) (n : string) :
  dict_get n (parse_env_vars items) = last_casing n items.
Proof.
  unfold parse_env_vars, dict_of_items, last_casing. simpl.
  rewrite fold_set_get, fold_left_map. simpl.
  apply fold_left_ext. intros a x. rewrite String.eqb_sym. reflexivity.
Qed.

Lemma last_casing_values {V W} (g : V -> W) (items : list (string * V))
    (n : string) :
  last_casing n (map (fun kv => (fst kv, g (snd kv))) items)
  = option_map g (last_casing n items).
Proof.
  unfold last_casing. rewrite fold_left_map. simpl.
  change (@None W) with (option_map g (@None V)).
  generalize (@None V) as acc.
  induction items as [|kv items IH]; intros acc; simpl; [reflexivity|].
  rewrite <- IH. destruct (str_lower (fst kv) =? n)%string; reflexivity.
Qed.

Lemma environ_vars_get (env : environ) (n : string) :
  dict_get n (environ_vars env) = option_map Some (env_text env n).
Proof.
  unfold environ_vars. rewrite parse_env_vars_get.
  apply last_casing_values.
Qed.

Lemma dotenv_vars_get (file : dotenv) (n : string) :
  match dict_get n (dotenv_vars file) with
  | Some v => v
  | None => None
  end = file_text file n.
Proof.
  unfold dotenv_vars, file_text.
  destruct file as [items|]; [|reflexivity].
  rewrite parse_env_vars_get. reflexivity.
Qed.

(** The text a source holds for a name is the text its input gives the
    lower-cased name. *)
Lemma environ_lookup (env : environ) (n : string) :
  get_field_value (environ_vars env) n = env_text env (str_lower n).
Proof.
  unfold get_field_value, field_env_name. simpl.
  rewrite environ_vars_get.
  destruct (env_text env (str_lower n)); reflexivity.
Qed.

Lemma dotenv_lookup (file : dotenv) (n : string) :
  get_field_value (dotenv_vars file) n = file_text file (str_lower n).
Proof.
  unfold get_field_value, field_env_name. simpl.
  apply dotenv_vars_get.
Qed.

Lemma environ_field (env : environ) (n : string) :
  In n field_names -> get_field_value (environ_vars env) n = env_text env n.
Proof.
  intros H. apply field_names_In in H. destruct H as (a & d & H).
  rewrite environ_lookup.
  destruct (field_name_lower _ _ _ H) as [-> _]. reflexivity.
Qed.

Lemma dotenv_field (file : dotenv) (n : string) :
  In n field_names -> get_field_value (dotenv_vars file) n = file_text file n.
Proof.
  intros H. apply field_names_In in H. destruct H as (a & d & H).
  rewrite dotenv_lookup.
  destruct (field_name_lower _ _ _ H) as [-> _]. reflexivity.
Qed.

(** The last entry wins. *)
Lemma last_casing_app {V} (n : string) (l1 l2 : list (string * V)) :
  last_casing n (l1 ++ l2)%list =
  match last_casing n l2 with
  | Some v => Some v
  | None => last_casing n l1
  end.
Proof.
  unfold last_casing. rewrite fold_left_app.
  generalize (fold_left
                (fun found kv =>
                   if (str_lower (fst kv) =? n)%string then Some (snd kv)
                   else found) l1 None) as acc.
  induction l2 as [|kv l2 IH] using rev_ind; intros acc; [reflexivity|].
  rewrite !fold_left_app. simpl.
  destruct (str_lower (fst kv) =? n)%string; [reflexivity | apply IH].
Qed.

Lemma last_casing_cons {V} (n k : string) (v : V) (l : list (string * V)) :
  last_casing n ((k, v) :: l) =
  match last_casing n l with
  | Some x => Some x
  | None => if (str_lower k =? n)%string then Some v else None
  end.
Proof.
  change ((k, v) :: l) with ([(k, v)] ++ l)%list.
  rewrite last_casing_app. reflexivity.
Qed.

Lemma last_casing_In {V} (n : string) (v : V) (l : list (string * V)) :
  last_casing n l = Some v -> exists k, In (k, v) l /\ str_lower k = n.
Proof.
  induction l as [|[k0 v0] l IH]; [discriminate|].
  rewrite last_casing_cons.
  destruct (last_casing n l) as [x|].
  - intros H; inversion H; subst x.
    destruct (IH eq_refl) as (k & Hin & Hk). exists k. split; [right|]; auto.
  - destruct (str_lower k0 =? n)%string eqn:E; [|discriminate].
    apply String.eqb_eq in E. intros H; inversion H; subst v0.
    exists k0. split; [left; reflexivity | exact E].
Qed.

Lemma last_casing_some {V} (n k : string) (v : V) (l : list (string * V)) :
  In (k, v) l -> str_lower k = n -> exists x, last_casing n l = Some x.
Proof.
  induction l as [|[k0 v0] l IH]; [contradiction|].
  intros Hin Hk. rewrite last_casing_cons.
  destruct (last_casing n l) as [x|] eqn:E; [eauto|].
  destruct Hin as [Hin | Hin].
  - inversion Hin; subst. rewrite String.eqb_refl. eauto.
  - destruct (IH Hin Hk) as [x Hx]. discriminate.
Qed.

(** ** The sources *)

Lemma source_fields_cons (src : source) (vars : dict (option string))
    (n : string) (a : annotation) (d : option value)
    (rest : list (string * (annotation * option value))) (data : dict pyobj) :
  source_fields src vars ((n, (a, d)) :: rest) data =
  match prepare_field_value a (get_field_value vars n) with
  | None => Raises (SettingsError n src)
  | Some _ =>
      source_fields src vars rest
        (match source_value vars n a with
         | Some v => dict_set n v data
         | None => data
         end)
  end.
Proof.
  unfold source_value. simpl.
  destruct (prepare_field_value a (get_field_value vars n)) as [[]|];
    reflexivity.
Qed.

Lemma source_value_raises (vars : dict (option string)) (n : string)
    (a : annotation) :
  prepare_field_value a (get_field_value vars n) = None <->
  exists raw, get_field_value vars n = Some raw /\ is_complex a = true /\
              json_loads raw = None.
Proof.
  unfold prepare_field_value.
  destruct (get_field_value vars n) as [raw|].
  - destruct (is_complex a).
    + split; [eauto | intros (r & H & _ & Hj); inversion H; subst; exact Hj].
    + split; [discriminate | intros (r & _ & H & _); discriminate].
  - split; [discriminate | intros (r & H & _); discriminate].
Qed.

(** The state a source returns, key by key. *)
Lemma source_fields_get (src : source) (vars : dict (option string))
    (fields : list (string * (annotation * option value))) :
  forall data out,
    NoDup (map fst fields) ->
    source_fields src vars fields data = Returns out ->
    forall k,
      dict_get k out =
      match dict_get k fields with
      | Some (a, _) =>
          match source_value vars k a with
          | Some v => Some v
          | None => dict_get k data
          end
      | None => dict_get k data
      end.
Proof.
  induction fields as [|[n [a d]] rest IH]; intros data out Hnd H k.
  - simpl in *. inversion H; reflexivity.
  - rewrite source_fields_cons in H. simpl in Hnd.
    inversion Hnd as [|? ? Hn Hd]; subst.
    assert (Hrest : dict_get n rest = None) by (apply dict_get_None; exact Hn).
    destruct (prepare_field_value a (get_field_value vars n)); [|discriminate].
    specialize (IH _ _ Hd H k). rewrite IH. simpl.
    destruct (k =? n)%string eqn:Ek.
    + apply String.eqb_eq in Ek; subst k. rewrite Hrest.
      destruct (source_value vars n a); [|reflexivity].
      rewrite dict_get_set, String.eqb_refl. reflexivity.
    + destruct (dict_get k rest) as [[a' d']|];
        destruct (source_value vars n a); try reflexivity;
          rewrite dict_get_set, Ek; reflexivity.
Qed.

Lemma source_fields_NoDup (src : source) (vars : dict (option string))
    (fields : list (string * (annotation * option value))) :
  forall data out,
    NoDup (map fst data) ->
    source_fields src vars fields data = Returns out ->
    NoDup (map fst out).
Proof.
  induction fields as [|[n [a d]] rest IH]; intros data out Hnd H.
  - simpl in *. inversion H; subst; exact Hnd.
  - rewrite source_fields_cons in H.
    destruct (prepare_field_value a (get_field_value vars n)); [|discriminate].
    eapply IH; [|exact H].
    destruct (source_value vars n a); [apply dict_set_NoDup|]; exact Hnd.
Qed.

(** A source raises only on a complex field whose text is not JSON. *)
Lemma source_fields_raises (src : source) (vars : dict (option string))
    (fields : list (string * (annotation * option value))) :
  forall data e,
    source_fields src vars fields data = Raises e ->
    exists n a d raw,
      In (n, (a, d)) fields /\ get_field_value vars n = Some raw /\
      is_complex a = true /\ json_loads raw = None /\
      e = SettingsError n src.
Proof.
  induction fields as [|[n [a d]] rest IH]; intros data e H.
  - simpl in H. discriminate.
  - rewrite source_fields_cons in H.
    destruct (prepare_field_value a (get_field_value vars n)) eqn:E.
    + destruct (IH _ _ H) as (n' & a' & d' & raw & Hin & Hrest).
      exists n', a', d', raw. split; [right; exact Hin | exact Hrest].
    + apply source_value_raises in E. destruct E as (raw & Hg & Hc & Hj).
      exists n, a, d, raw. inversion H. simpl. auto 10.
Qed.

(** A source returns when every complex field it holds a text for decodes. *)
Lemma source_fields_returns (src : source) (vars : dict (option string))
    (fields : list (string * (annotation * option value))) :
  (forall n a d raw,
      In (n, (a, d)) fields -> get_field_value vars n = Some raw ->
      is_complex a = true -> json_loads raw <> None) ->
  forall data, exists out, source_fields src vars fields data = Returns out.
Proof.
  intros H data.
  destruct (source_fields src vars fields data) as [out|e] eqn:E.
  - exists out; reflexivity.
  - apply source_fields_raises in E.
    destruct E as (n & a & d & raw & Hin & Hg & Hc & Hj & _).
    exfalso. exact (H n a d raw Hin Hg Hc Hj).
Qed.

Lemma source_fields_decodes (src : source) (vars : dict (option string))
    (fields : list (string * (annotation * option value))) :
  forall data out,
    source_fields src vars fields data = Returns out ->
    forall n a d raw,
      In (n, (a, d)) fields -> get_field_value vars n = Some raw ->
      is_complex a = true -> json_loads raw <> None.
Proof.
  induction fields as [|[n0 [a0 d0]] rest IH];
    intros data out H n a d raw Hin Hg Hc.
  - contradiction.
  - rewrite source_fields_cons in H.
    destruct (prepare_field_value a0 (get_field_value vars n0)) eqn:E;
      [|discriminate].
    destruct Hin as [Heq | Hin]; [|eapply IH; eassumption].
    inversion Heq; subst. intros Hj.
    assert (Hn : prepare_field_value a (get_field_value vars n) = None)
      by (apply source_value_raises; eauto).
    congruence.
Qed.


Lemma complex_field (n : string) (a : annotation) (d : option value) :
  In (n, (a, d)) model_fields -> is_complex a = true -> n = "cors_origins".
Proof.
  unfold model_fields; simpl.
  intros H Hc;
    repeat (destruct H as [H | H];
            [inversion H; subst; try discriminate Hc; try reflexivity|]).
  contradiction.
Qed.

Lemma cors_origins_field :
  In ("cors_origins", (Tlist_str, Some (VList ["http://localhost:3000"])))
    model_fields.
Proof. unfold model_fields; simpl; auto 10. Qed.

Lemma cors_origins_name : In "cors_origins" field_names.
Proof. unfold field_names; simpl; auto 10. Qed.

Lemma secret_key_field : In ("secret_key", (Tstr, None)) model_fields.
Proof. unfold model_fields; simpl; auto 10. Qed.

Lemma secret_key_name : In "secret_key" field_names.
Proof. unfold field_names; simpl; auto 10. Qed.

(** The keys the dotenv source adds are no field names. *)
Lemma dotenv_extra_get (vars : dict (option string)) (k : string) :
  env_used k = true ->
  forall data, dict_get k (dotenv_extra vars data) = dict_get k data.
Proof.
  intros Hk. unfold dotenv_extra.
  induction vars as [|[k0 [v0|]] vars IH]; intros data; simpl.
  - reflexivity.
  - destruct ((v0 =? "")%string || dict_mem k0 data || env_used k0) eqn:E.
    + apply IH.
    + rewrite IH, dict_get_set.
      destruct (k =? k0)%string eqn:Ek; [|reflexivity].
      apply String.eqb_eq in Ek; subst k0.
      apply orb_false_iff in E. destruct E as [_ E]. congruence.
  - apply IH.
Qed.

(** The used keys are the field names. *)
Lemma env_used_field (k : string) :
  env_used k = dict_mem k model_fields.
Proof.
  unfold env_used, dict_mem.
  assert (E : forall f, In f model_fields -> field_env_name (fst f) = fst f).
  { intros [n [a d]] H. exact (proj1 (field_name_lower _ _ _ H)). }
  revert E. generalize model_fields as l.
  induction l as [|[n [a d]] l IH]; intros E; simpl; [reflexivity|].
  pose proof (E (n, (a, d)) (or_introl eq_refl)) as E0. simpl in E0.
  rewrite E0.
  destruct (k =? n)%string; simpl; [reflexivity|].
  apply IH. intros f Hf. apply E. right. exact Hf.
Qed.

Lemma field_env_used (n : string) (a : annotation) (d : option value) :
  In (n, (a, d)) model_fields -> env_used n = true.
Proof.
  intros H. rewrite env_used_field.
  exact (proj2 (field_name_lower _ _ _ H)).
Qed.

Lemma field_lookup (n : string) (a : annotation) (d : option value) :
  In (n, (a, d)) model_fields -> dict_get n model_fields = Some (a, d).
Proof.
  unfold model_fields; simpl.
  intros H; repeat (destruct H as [H | H]; [inversion H; reflexivity|]).
  contradiction.
Qed.

Lemma build_values_inv (env : environ) (file : dotenv) (st : dict pyobj) :
  settings_build_values env file = Returns st ->
  exists es ds,
    source_fields EnvSettingsSource (environ_vars env) model_fields []
    = Returns es /\
    source_fields DotEnvSettingsSource (dotenv_vars file) model_fields []
    = Returns ds /\
    st = deep_update (dotenv_extra (dotenv_vars file) ds) es.
Proof.
  unfold settings_build_values, env_settings,
    dotenv_settings, bind.
  destruct (source_fields EnvSettingsSource _ _ _) as [es|]; [|discriminate].
  destruct (source_fields DotEnvSettingsSource _ _ _) as [ds|]; [|discriminate].
  intros H; inversion H. exists es, ds. auto.
Qed.

Lemma build_values_raises (env : environ) (file : dotenv) (e : exn) :
  settings_build_values env file = Raises e ->
  exists src raw,
    e = SettingsError "cors_origins" src /\
    match src with
    | EnvSettingsSource => env_text env "cors_origins"
    | DotEnvSettingsSource => file_text file "cors_origins"
    end = Some raw /\
    json_loads raw = None /\
    (src = DotEnvSettingsSource -> exists es, env_settings env = Returns es).
Proof.
  unfold settings_build_values, env_settings,
    dotenv_settings, bind.
  destruct (source_fields EnvSettingsSource _ _ _) as [es|e1] eqn:Hes.
  - destruct (source_fields DotEnvSettingsSource _ _ _)
      as [ds|e2] eqn:Hds; [discriminate|].
    intros Hb; inversion Hb; subst e2.
    apply source_fields_raises in Hds.
    destruct Hds as (n & a & d & raw & Hin & Hg & Hc & Hj & ->).
    rewrite (complex_field _ _ _ Hin Hc) in *.
    rewrite (dotenv_field _ _ cors_origins_name) in Hg.
    exists DotEnvSettingsSource, raw. eauto.
  - intros Hb; inversion Hb; subst e1.
    apply source_fields_raises in Hes.
    destruct Hes as (n & a & d & raw & Hin & Hg & Hc & Hj & ->).
    rewrite (complex_field _ _ _ Hin Hc) in *.
    rewrite (environ_field _ _ cors_origins_name) in Hg.
    exists EnvSettingsSource, raw. repeat split; auto. discriminate.
Qed.

(** The merged state at a field: the environment's entry, else the file's. *)
Lemma state_get_field (env : environ) (file : dotenv) (st : dict pyobj)
    (n : string) (a : annotation) (d : option value) :
  In (n, (a, d)) model_fields ->
  settings_build_values env file = Returns st ->
  dict_get n st =
  match source_value (environ_vars env) n a with
  | Some v =>
      Some (match source_value (dotenv_vars file) n a with
            | Some o => deep_update_value o v
            | None => v
            end)
  | None => source_value (dotenv_vars file) n a
  end.
Proof.
  intros Hin H.
  destruct (build_values_inv _ _ _ H) as (es & ds & Hes & Hds & ->).
  rewrite deep_update_get
    by (eapply source_fields_NoDup; [|exact Hes]; constructor).
  rewrite (dotenv_extra_get _ _ (field_env_used _ _ _ Hin)).
  rewrite (source_fields_get _ _ _ _ _ model_fields_NoDup Hes).
  rewrite (source_fields_get _ _ _ _ _ model_fields_NoDup Hds).
  rewrite (field_lookup _ _ _ Hin). simpl.
  destruct (source_value (environ_vars env) n a);
    destruct (source_value (dotenv_vars file) n a); reflexivity.
Qed.

(** The entry of a source for a field, from the text its input supplies. *)
Lemma source_value_text (vars : dict (option string)) (n : string)
    (a : annotation) :
  prepare_field_value a (get_field_value vars n) <> None ->
  source_value vars n a =
  match supplied a (get_field_value vars n) with
  | Some raw => prepare_field_value a (Some raw)
  | None => None
  end.
Proof.
  unfold source_value, supplied, prepare_field_value. intros H.
  destruct (get_field_value vars n) as [raw|]; [|reflexivity].
  destruct (is_complex a); [|reflexivity].
  destruct (json_loads raw) as [j|] eqn:Ej;
    [destruct j; simpl; rewrite ?Ej; reflexivity|].
  exfalso; apply H; reflexivity.
Qed.

Lemma supplied_prepared (a : annotation) (t : option string) (raw : string) :
  supplied a t = Some raw -> prepare_field_value a t <> None ->
  exists v, prepare_field_value a (Some raw) = Some v /\ v <> PyNone /\
            t = Some raw.
Proof.
  unfold supplied, prepare_field_value.
  destruct t as [r|]; [|discriminate].
  destruct (is_complex a).
  - destruct (json_loads r) as [j|] eqn:Ej.
    + destruct j; intros H _; inversion H; subst; rewrite Ej;
        eexists; (split; [reflexivity|]); split; (discriminate || reflexivity).
    + intros _ H. exfalso. apply H. reflexivity.
  - intros H _; inversion H; subst. eexists. split; [reflexivity|].
    split; [discriminate | reflexivity].
Qed.

Lemma env_prepared (env : environ) (file : dotenv) (st : dict pyobj)
    (n : string) (a : annotation) (d : option value) :
  In (n, (a, d)) model_fields ->
  settings_build_values env file = Returns st ->
  prepare_field_value a (env_text env n) <> None /\
  prepare_field_value a (file_text file n) <> None.
Proof.
  intros Hin Hb.
  assert (Hn : In n field_names) by (apply field_names_In; eauto).
  destruct (build_values_inv _ _ _ Hb) as (es & ds & Hes & Hds & _).
  rewrite <- (environ_field env n Hn), <- (dotenv_field file n Hn).
  split; intros H; apply source_value_raises in H;
    destruct H as (raw & Hg & Hc & Hj).
  - exact (source_fields_decodes _ _ _ _ _ Hes _ _ _ _ Hin Hg Hc Hj).
  - exact (source_fields_decodes _ _ _ _ _ Hds _ _ _ _ Hin Hg Hc Hj).
Qed.

(** The merged state at a field, from the texts the inputs supply. *)
Lemma state_get_supplied (env : environ) (file : dotenv) (st : dict pyobj)
    (n : string) (a : annotation) (d : option value) :
  In (n, (a, d)) model_fields ->
  settings_build_values env file = Returns st ->
  match supplied a (env_text env n) with
  | Some raw =>
      exists v,
        prepare_field_value a (Some raw) = Some v /\
        (dict_get n st = Some v \/
         exists o, dict_get n st = Some (deep_update_value o v))
  | None =>
      match supplied a (file_text file n) with
      | Some raw =>
          exists v, prepare_field_value a (Some raw) = Some v /\
                    dict_get n st = Some v
      | None => dict_get n st = None
      end
  end.
Proof.
  intros Hin Hb.
  assert (Hn : In n field_names) by (apply field_names_In; eauto).
  destruct (env_prepared _ _ _ _ _ _ Hin Hb) as [He Hf].
  rewrite (state_get_field _ _ _ _ _ _ Hin Hb).
  rewrite !source_value_text
    by (rewrite ?(environ_field env n Hn), ?(dotenv_field file n Hn);
        assumption).
  rewrite (environ_field env n Hn), (dotenv_field file n Hn).
  destruct (supplied a (env_text env n)) as [raw|] eqn:Ee.
  - destruct (supplied_prepared _ _ _ Ee He) as (v & Hv & _ & _).
    rewrite Hv. exists v. split; [reflexivity|].
    destruct (supplied a (file_text file n)) as [raw'|] eqn:Ef.
    + destruct (supplied_prepared _ _ _ Ef Hf) as (o & Ho & _ & _).
      rewrite Ho. right. exists o. reflexivity.
    + left. reflexivity.
  - destruct (supplied a (file_text file n)) as [raw'|] eqn:Ef.
    + destruct (supplied_prepared _ _ _ Ef Hf) as (o & Ho & _ & _).
      exists o. auto.
    + reflexivity.
Qed.

(** ** Validators *)

Lemma str_validator_inr (l : list loc_item) (v : pyobj) (s : string) :
  str_validator l v = inr s <-> v = PyStr s.
Proof.
  destruct v; simpl; split; intros H; try discriminate; congruence.
Qed.

Lemma int_field_validator_inr (l : list loc_item) (v : pyobj) (z : Z) :
  int_field_validator l v = inr z <-> int_validator v = inr z.
Proof.
  unfold int_field_validator.
  destruct (int_validator v); split; intros H; try discriminate; congruence.
Qed.

Lemma int_field_validator_inl (l : list loc_item) (v : pyobj) (e : int_error) :
  int_validator v = inl e ->
  int_field_validator l v = inl [mkError l (int_error_type e)].
Proof.
  unfold int_field_validator. intros ->. reflexivity.
Qed.

(** The decimal text of an integer is read back as that integer, as long
    as it has at most 4300 characters. *)
Lemma int_validator_int_text (n : Z) :
  (String.length (int_text n) <= 4300)%nat ->
  int_validator (PyStr (int_text n)) = inr n.
Proof.
  intros H. unfold int_validator. rewrite decimal_value_int_text.
  apply Nat.leb_le in H. rewrite H. reflexivity.
Qed.

(** A canonical decimal text of more than 4300 digits is refused. *)
Lemma int_validator_size (s : string) (d : Decimal.signed_int) :
  NilZero.int_of_string s = Some d -> Decimal.norm d = d ->
  (4300 < digit_count s)%nat ->
  int_validator (PyStr s) = inl IntParsingSize.
Proof.
  intros Hs Hn Hd. unfold int_validator.
  rewrite (decimal_value_norm _ _ Hs Hn).
  assert (Hl : (String.length s <=? 4300)%nat = false).
  { apply Nat.leb_gt. unfold digit_count in Hd.
    destruct s as [|c r]; [exact Hd|].
    destruct (Ascii.eqb c "-") eqn:E.
    - apply Ascii.eqb_eq in E; subst c. simpl in *. lia.
    - destruct c as [[] [] [] [] [] [] [] []]; simpl in *;
        try discriminate E; lia. }
  rewrite Hl. apply Nat.ltb_lt in Hd. rewrite Hd. reflexivity.
Qed.

Lemma validate_items_map (l : list loc_item) (xs : list string) :
  forall i, validate_items l i (map PyStr xs) = inr xs.
Proof.
  induction xs as [|x xs IH]; intros i; simpl; [reflexivity|].
  rewrite IH. reflexivity.
Qed.

Lemma validate_items_inr (l : list loc_item) (items : list pyobj) :
  forall i xs, validate_items l i items = inr xs <-> items = map PyStr xs.
Proof.
  intros i xs. split; [|intros ->; apply validate_items_map].
  revert i xs. induction items as [|x items IH]; intros i xs; simpl.
  - intros H; inversion H; reflexivity.
  - destruct (str_validator (l ++ [LocIndex i])%list x) as [e|s] eqn:Ex;
      [discriminate|].
    apply str_validator_inr in Ex; subst x.
    destruct (validate_items l (S i) items) as [e|ss] eqn:Er; [discriminate|].
    intros H; inversion H; subst. simpl. f_equal. eapply IH; exact Er.
Qed.

Lemma list_str_validator_inr (l : list loc_item) (v : pyobj) (xs : list string) :
  list_str_validator l v = inr xs <-> v = PyList (map PyStr xs).
Proof.
  destruct v; simpl; try (split; intros H; discriminate).
  rewrite validate_items_inr. split; congruence.
Qed.

Lemma validate_items_types (l : list loc_item) (items : list pyobj) :
  forall i e, In e (errors_of (validate_items l i items)) -> type e = string_type.
Proof.
  induction items as [|x items IH]; intros i e; simpl; [tauto|].
  destruct (str_validator (l ++ [LocIndex i])%list x) as [e1|s1] eqn:Ex;
    destruct (validate_items l (S i) items) as [e2|s2] eqn:Er; simpl;
    try tauto; rewrite ?in_app_iff; simpl.
  - intros [H | H].
    + destruct x; simpl in Ex; inversion Ex; subst;
        destruct H as [<- | []]; reflexivity.
    + apply (IH (S i)). rewrite Er. exact H.
  - intros [H | []].
    destruct x; simpl in Ex; inversion Ex; subst;
      destruct H as [<- | []]; reflexivity.
  - intros H. apply (IH (S i)). rewrite Er. exact H.
Qed.

(** A merge with the entry of a lower source leaves a value that is no
    dictionary as it is. *)
Lemma merged_value (v m : pyobj) :
  (m = v \/ exists o, m = deep_update_value o v) ->
  m = v \/ exists items, m = PyDict items.
Proof.
  intros [H | [o H]]; [left; exact H|].
  destruct (deep_update_value_cases o v) as [E | (d & u & _ & _ & items & E)].
  - left. congruence.
  - right. exists items. congruence.
Qed.

(** ** The model validator *)

Lemma extra_errors_nil (st : dict pyobj) :
  extra_errors st = [] <->
  forall k, dict_mem k st = true -> dict_mem k model_fields = true.
Proof.
  unfold extra_errors. simpl.
  induction st as [|[k0 v0] st IH]; simpl.
  - split; [intros _ k H; discriminate | reflexivity].
  - destruct (dict_mem k0 model_fields) eqn:E0; simpl.
    + rewrite IH. split; intros H k Hk.
      * unfold dict_mem in Hk. simpl in Hk.
        destruct (k =? k0)%string eqn:Ek.
        -- apply String.eqb_eq in Ek; subst; exact E0.
        -- apply H. exact Hk.
      * apply H. unfold dict_mem in *. simpl.
        destruct (k =? k0)%string; [reflexivity | exact Hk].
    + split; [discriminate|]. intros H.
      specialize (H k0). unfold dict_mem at 1 in H. simpl in H.
      rewrite String.eqb_refl in H. specialize (H eq_refl). congruence.
Qed.

Lemma extra_errors_type (st : dict pyobj) (e : ErrorDetails) :
  In e (extra_errors st) -> type e = extra_forbidden.
Proof.
  unfold extra_errors. simpl. rewrite in_map_iff.
  intros (kv & <- & _). reflexivity.
Qed.

Lemma extra_errors_In (st : dict pyobj) (k : string) :
  dict_mem k st = true -> dict_mem k model_fields = false ->
  In (mkError [LocKey k] extra_forbidden) (extra_errors st).
Proof.
  intros Hs Hf. unfold extra_errors. simpl.
  unfold dict_mem in Hs. destruct (dict_get k st) as [v|] eqn:E; [|discriminate].
  apply dict_get_In in E.
  apply in_map_iff. exists (k, v). split; [reflexivity|].
  apply filter_In. split; [exact E|]. simpl. rewrite Hf. reflexivity.
Qed.

Lemma model_validate_inr (st : dict pyobj) (s : Settings) :
  model_validate st = inr s <->
  validate_field str_validator f_database_url st = inr (database_url s) /\
  validate_field str_validator f_api_host st = inr (api_host s) /\
  validate_field int_field_validator f_api_port st = inr (api_port s) /\
  validate_field list_str_validator f_cors_origins st = inr (cors_origins s) /\
  validate_field str_validator f_secret_key st = inr (secret_key s) /\
  validate_field str_validator f_algorithm st = inr (algorithm s) /\
  validate_field int_field_validator f_access_token_expire_minutes st
  = inr (access_token_expire_minutes s) /\
  extra_errors st = [].
Proof.
  unfold model_validate.
  destruct (validate_field str_validator f_database_url st) as [e1|v1];
    [split; [discriminate | intros (H & _); discriminate]|].
  destruct (validate_field str_validator f_api_host st) as [e2|v2];
    [split; [discriminate | intros (_ & H & _); discriminate]|].
  destruct (validate_field int_field_validator f_api_port st) as [e3|v3];
    [split; [discriminate | intros (_ & _ & H & _); discriminate]|].
  destruct (validate_field list_str_validator f_cors_origins st) as [e4|v4];
    [split; [discriminate | intros (_ & _ & _ & H & _); discriminate]|].
  destruct (validate_field str_validator f_secret_key st) as [e5|v5];
    [split; [discriminate | intros (_ & _ & _ & _ & H & _); discriminate]|].
  destruct (validate_field str_validator f_algorithm st) as [e6|v6];
    [split; [discriminate | intros (_ & _ & _ & _ & _ & H & _); discriminate]|].
  destruct (validate_field int_field_validator
              f_access_token_expire_minutes st) as [e7|v7];
    [split; [discriminate | intros (_ & _ & _ & _ & _ & _ & H & _); discriminate]|].
  destruct (extra_errors st) as [|e es];
    [|split; [discriminate | intros (_ & _ & _ & _ & _ & _ & _ & H); discriminate]].
  destruct s; simpl. split.
  - intros H; inversion H; subst; repeat split; reflexivity.
  - intros (H1 & H2 & H3 & H4 & H5 & H6 & H7 & _).
    inversion H1; inversion H2; inversion H3; inversion H4; inversion H5;
      inversion H6; inversion H7; subst; reflexivity.
Qed.

(** The errors of the model validator: those of the fields, in declaration
    order, then those of the extra keys. *)
Lemma model_validate_inl (st : dict pyobj) (errors : list ErrorDetails) :
  model_validate st = inl errors ->
  errors =
  (errors_of (validate_field str_validator f_database_url st)
   ++ errors_of (validate_field str_validator f_api_host st)
   ++ errors_of (validate_field int_field_validator f_api_port st)
   ++ errors_of (validate_field list_str_validator f_cors_origins st)
   ++ errors_of (validate_field str_validator f_secret_key st)
   ++ errors_of (validate_field str_validator f_algorithm st)
   ++ errors_of (validate_field int_field_validator
                   f_access_token_expire_minutes st)
   ++ extra_errors st)%list.
Proof.
  unfold model_validate.
  destruct (validate_field str_validator f_database_url st);
  destruct (validate_field str_validator f_api_host st);
  destruct (validate_field int_field_validator f_api_port st);
  destruct (validate_field list_str_validator f_cors_origins st);
  destruct (validate_field str_validator f_secret_key st);
  destruct (validate_field str_validator f_algorithm st);
  destruct (validate_field int_field_validator
              f_access_token_expire_minutes st);
  destruct (extra_errors st);
  intros H; inversion H; reflexivity.
Qed.

(** The model validator fails as soon as one field has an error or one key
    is extra, and its error list then holds that error. *)
Lemma model_validate_has (st : dict pyobj) (e : ErrorDetails) :
  In e (errors_of (validate_field str_validator f_database_url st)) \/
  In e (errors_of (validate_field str_validator f_api_host st)) \/
  In e (errors_of (validate_field int_field_validator f_api_port st)) \/
  In e (errors_of (validate_field list_str_validator f_cors_origins st)) \/
  In e (errors_of (validate_field str_validator f_secret_key st)) \/
  In e (errors_of (validate_field str_validator f_algorithm st)) \/
  In e (errors_of (validate_field int_field_validator
                     f_access_token_expire_minutes st)) \/
  In e (extra_errors st) ->
  exists errors, model_validate st = inl errors /\ In e errors.
Proof.
  intros H.
  destruct (model_validate st) as [errors|s] eqn:E.
  - exists errors. split; [reflexivity|].
    rewrite (model_validate_inl _ _ E). repeat rewrite in_app_iff. exact H.
  - exfalso. apply model_validate_inr in E.
    destruct E as (H1 & H2 & H3 & H4 & H5 & H6 & H7 & H8).
    rewrite H1, H2, H3, H4, H5, H6, H7, H8 in H. simpl in H. tauto.
Qed.

Lemma Settings_new_inv (env : environ) (file : dotenv) (s : Settings) :
  Settings_new env file = Returns s <->
  exists st,
    settings_build_values env file = Returns st /\ model_validate st = inr s.
Proof.
  unfold Settings_new, bind.
  destruct (settings_build_values env file) as [st|e].
  - destruct (model_validate st) as [errs|s'] eqn:E; split.
    + discriminate.
    + intros (st' & H1 & H2). inversion H1; subst. congruence.
    + intros H; inversion H; subst. exists st; auto.
    + intros (st' & H1 & H2). inversion H1; subst. congruence.
  - split; [discriminate | intros (st & H & _); discriminate].
Qed.

Lemma Settings_new_validation_error (env : environ) (file : dotenv)
    (errors : list ErrorDetails) :
  Settings_new env file = Raises (ValidationError errors) <->
  exists st,
    settings_build_values env file = Returns st /\
    model_validate st = inl errors.
Proof.
  unfold Settings_new, bind.
  destruct (settings_build_values env file) as [st|e] eqn:Hb.
  - destruct (model_validate st) as [errs|s] eqn:E; split.
    + intros H; inversion H; subst. exists st; auto.
    + intros (st' & H1 & H2). inversion H1; subst. congruence.
    + discriminate.
    + intros (st' & H1 & H2). inversion H1; subst. congruence.
  - split.
    + intros H; inversion H; subst.
      destruct (build_values_raises _ _ _ Hb) as (src & raw & H1 & _).
      discriminate.
    + intros (st & H & _); discriminate.
Qed.

(** A state with an error makes the construction raise a validation
    error that holds it; a source that raised, the settings error of
    [cors_origins]. *)
Lemma Settings_new_reports (env : environ) (file : dotenv) (e : ErrorDetails) :
  (forall st, settings_build_values env file = Returns st ->
              exists errors, model_validate st = inl errors /\ In e errors) ->
  exists x,
    Settings_new env file = Raises x /\
    match x with
    | ValidationError errors => In e errors
    | SettingsError n src =>
        n = "cors_origins" /\
        exists raw,
          match src with
          | EnvSettingsSource => env_text env "cors_origins"
          | DotEnvSettingsSource => file_text file "cors_origins"
          end = Some raw /\
          json_loads raw = None
    end.
Proof.
  intros H. unfold Settings_new, bind.
  destruct (settings_build_values env file) as [st|x] eqn:Hb.
  - destruct (H st eq_refl) as (errors & -> & Hin).
    eexists. split; [reflexivity | exact Hin].
  - destruct (build_values_raises _ _ _ Hb) as (src & raw & -> & Hr & Hj & _).
    eexists. split; [reflexivity|]. split; [reflexivity|]. eauto.
Qed.

(** ** Where a field's value comes from *)

(** The value a validated field has comes from the text of the
    highest-priority source that supplies one, else from the default. *)
Lemma validate_field_source {A}
    (validator : list loc_item -> pyobj -> validated A) (f : Field A)
    (inj : A -> value) (d : option value)
    (env : environ) (file : dotenv) (st : dict pyobj) (x : A) :
  In (name f, (annot f, d)) model_fields ->
  d = option_map inj (default f) ->
  (forall l raw v m,
      prepare_field_value (annot f) (Some raw) = Some v ->
      (m = v \/ exists o, m = deep_update_value o v) ->
      validator l m = inr x -> text_denotes (annot f) raw (inj x)) ->
  settings_build_values env file = Returns st ->
  validate_field validator f st = inr x ->
  match supplied (annot f) (env_text env (name f)) with
  | Some raw => text_denotes (annot f) raw (inj x)
  | None =>
      match supplied (annot f) (file_text file (name f)) with
      | Some raw => text_denotes (annot f) raw (inj x)
      | None => d = Some (inj x)
      end
  end.
Proof.
  intros Hin Hd Hden Hb Hv. unfold validate_field in Hv.
  pose proof (state_get_supplied _ _ _ _ _ _ Hin Hb) as Hst.
  destruct (supplied (annot f) (env_text env (name f))) as [raw|].
  - destruct Hst as (v & Hp & [Hg | [o Hg]]); rewrite Hg in Hv.
    + exact (Hden _ raw v v Hp (or_introl eq_refl) Hv).
    + exact (Hden _ raw v _ Hp (or_intror (ex_intro _ o eq_refl)) Hv).
  - destruct (supplied (annot f) (file_text file (name f))) as [raw|].
    + destruct Hst as (v & Hp & Hg). rewrite Hg in Hv.
      exact (Hden _ raw v v Hp (or_introl eq_refl) Hv).
    + rewrite Hst in Hv. subst d.
      destruct (default f); [|discriminate]. simpl. congruence.
Qed.

Lemma str_denotes (a : annotation) (x : string) :
  a = Tstr ->
  forall l raw v m,
    prepare_field_value a (Some raw) = Some v ->
    (m = v \/ exists o, m = deep_update_value o v) ->
    str_validator l m = inr x -> text_denotes a raw (VStr x).
Proof.
  intros -> l raw v m Hp Hm Hv. simpl in Hp. inversion Hp; subst v.
  apply str_validator_inr in Hv. subst m. simpl.
  destruct (merged_value _ _ Hm) as [H | [items H]];
    [congruence | discriminate].
Qed.

Lemma int_denotes (a : annotation) (x : Z) :
  a = Tint ->
  forall l raw v m,
    prepare_field_value a (Some raw) = Some v ->
    (m = v \/ exists o, m = deep_update_value o v) ->
    int_field_validator l m = inr x -> text_denotes a raw (VInt x).
Proof.
  intros -> l raw v m Hp Hm Hv. simpl in Hp. inversion Hp; subst v.
  apply int_field_validator_inr in Hv. simpl.
  destruct Hm as [-> | [o ->]]; [exact Hv|].
  destruct o; exact Hv.
Qed.

Lemma list_denotes (a : annotation) (x : list string) :
  a = Tlist_str ->
  forall l raw v m,
    prepare_field_value a (Some raw) = Some v ->
    (m = v \/ exists o, m = deep_update_value o v) ->
    list_str_validator l m = inr x -> text_denotes a raw (VList x).
Proof.
  intros -> l raw v m Hp Hm Hv. simpl in Hp.
  apply list_str_validator_inr in Hv. subst m. simpl.
  destruct (merged_value _ _ Hm) as [H | [items H]];
    [congruence | discriminate].
Qed.

Ltac field_case P :=
  cbv [name annot default f_database_url f_api_host f_api_port f_cors_origins
       f_secret_key f_algorithm f_access_token_expire_minutes] in P;
  match goal with
  | |- context [getattr ?s ?n] =>
      let g := eval simpl in (getattr s n) in change (getattr s n) with g
  end;
  repeat match goal with
         | |- match ?t with _ => _ end => destruct t
         end;
  [ eexists; split; [reflexivity | exact P]
  | eexists; split; [reflexivity | exact P]
  | symmetry; exact P ].

(** On a successful construction every field holds the value of the
    first of: the text the process environment supplies, the text the
    [.env] file supplies, the declared default. *)
Lemma field_source (env : environ) (file : dotenv) (s : Settings) :
  Settings_new env file = Returns s ->
  forall n a d, In (n, (a, d)) model_fields ->
    match supplied a (env_text env n) with
    | Some raw => exists v, getattr s n = Some v /\ text_denotes a raw v
    | None =>
        match supplied a (file_text file n) with
        | Some raw => exists v, getattr s n = Some v /\ text_denotes a raw v
        | None => getattr s n = d
        end
    end.
Proof.
  intros H n a d Hin.
  apply Settings_new_inv in H. destruct H as (st & Hb & Hv).
  apply model_validate_inr in Hv.
  destruct Hv as (H1 & H2 & H3 & H4 & H5 & H6 & H7 & _).
  pose proof Hin as Hin'. unfold model_fields in Hin'. simpl in Hin'.
  destruct Hin' as [E|[E|[E|[E|[E|[E|[E|[]]]]]]]];
    inversion E; subst n a d; clear E.
  - pose proof (validate_field_source str_validator f_database_url VStr _
                  env file st _ Hin eq_refl (str_denotes _ _ eq_refl) Hb H1) as P.
    field_case P.
  - pose proof (validate_field_source str_validator f_api_host VStr _
                  env file st _ Hin eq_refl (str_denotes _ _ eq_refl) Hb H2) as P.
    field_case P.
  - pose proof (validate_field_source int_field_validator f_api_port VInt _
                  env file st _ Hin eq_refl (int_denotes _ _ eq_refl) Hb H3) as P.
    field_case P.
  - pose proof (validate_field_source list_str_validator f_cors_origins VList _
                  env file st _ Hin eq_refl (list_denotes _ _ eq_refl) Hb H4) as P.
    field_case P.
  - pose proof (validate_field_source str_validator f_secret_key VStr _
                  env file st _ Hin eq_refl (str_denotes _ _ eq_refl) Hb H5) as P.
    field_case P.
  - pose proof (validate_field_source str_validator f_algorithm VStr _
                  env file st _ Hin eq_refl (str_denotes _ _ eq_refl) Hb H6) as P.
    field_case P.
  - pose proof (validate_field_source int_field_validator
                  f_access_token_expire_minutes VInt _
                  env file st _ Hin eq_refl (int_denotes _ _ eq_refl) Hb H7) as P.
    field_case P.
Qed.

(** ** The required field *)

Lemma missing_line (errors : list ErrorDetails) :
  In (mkError [LocKey "secret_key"] missing) errors ->
  In "secret_key" (exn_lines (ValidationError errors)).
Proof.
  intros H. simpl. right. apply in_flat_map.
  exists (mkError [LocKey "secret_key"] missing). split; [exact H|].
  simpl. left. reflexivity.
Qed.

(** The merged state has an entry for [secret_key] exactly when the
    process environment or the [.env] file gives it a text. *)
Lemma state_secret_key (env : environ) (file : dotenv) (st : dict pyobj) :
  settings_build_values env file = Returns st ->
  (dict_get "secret_key" st = None <->
   env_text env "secret_key" = None /\ file_text file "secret_key" = None).
Proof.
  intros Hb.
  pose proof (state_get_supplied _ _ _ _ _ _ secret_key_field Hb) as H.
  simpl in H.
  destruct (env_text env "secret_key") as [raw|].
  - destruct H as (v & _ & [H | [o H]]); rewrite H;
      split; [discriminate | intros [? _]; discriminate
             | discriminate | intros [? _]; discriminate].
  - destruct (file_text file "secret_key") as [raw|].
    + destruct H as (v & _ & H). rewrite H.
      split; [discriminate | intros [_ ?]; discriminate].
    + tauto.
Qed.

Lemma missing_secret_key_state (st : dict pyobj) :
  dict_get "secret_key" st = None ->
  exists errors,
    model_validate st = inl errors /\
    In (mkError [LocKey "secret_key"] missing) errors.
Proof.
  intros Hst. apply model_validate_has.
  do 4 right. left. unfold validate_field.
  cbv [name default f_secret_key]. rewrite Hst. simpl. auto.
Qed.

(** C1, as the code has it.  When neither the process environment nor the
    [.env] file gives [secret_key] a text, under any casing of the name,
    construction never succeeds.  It raises a validation error that holds
    the [missing] error of [secret_key], whose message names the field on
    a line of its own, unless a source gives [cors_origins] a text that is
    not JSON: that source then raises a settings error about
    [cors_origins] before any validation takes place. *)
Theorem missing_secret_key_raises (env : environ) (file : dotenv) :
  env_text env "secret_key" = None ->
  file_text file "secret_key" = None ->
  exists e,
    Settings_new env file = Raises e /\
    match e with
    | ValidationError errors =>
        In (mkError [LocKey "secret_key"] missing) errors /\
        In "secret_key" (exn_lines e)
    | SettingsError n src =>
        n = "cors_origins" /\
        exists raw,
          match src with
          | EnvSettingsSource => env_text env "cors_origins"
          | DotEnvSettingsSource => file_text file "cors_origins"
          end = Some raw /\
          json_loads raw = None
    end.
Proof.
  intros He Hf.
  destruct (Settings_new_reports env file
              (mkError [LocKey "secret_key"] missing)) as (e & Hr & He').
  { intros st Hb. apply missing_secret_key_state.
    apply (state_secret_key _ _ _ Hb). auto. }
  exists e. split; [exact Hr|].
  destruct e as [n src | errors]; [exact He'|].
  split; [exact He' | apply missing_line; exact He'].
Qed.

(** ** Defaults *)

Lemma source_fields_none (src : source) (vars : dict (option string))
    (fields : list (string * (annotation * option value))) :
  (forall n a d, In (n, (a, d)) fields -> get_field_value vars n = None) ->
  forall data, source_fields src vars fields data = Returns data.
Proof.
  induction fields as [|[n [a d]] rest IH]; intros H data; [reflexivity|].
  rewrite source_fields_cons. unfold source_value.
  rewrite (H n a d (or_introl eq_refl)). simpl.
  apply IH. intros; eapply H; right; eassumption.
Qed.

Lemma dict_In_get {V} (k : string) (v : V) (d : dict V) :
  NoDup (map fst d) -> In (k, v) d -> dict_get k d = Some v.
Proof.
  induction d as [|[k0 v0] d IH]; simpl; [contradiction|].
  intros Hnd [H | H]; inversion Hnd as [|? ? Hn Hd]; subst.
  - inversion H; subst. rewrite String.eqb_refl. reflexivity.
  - destruct (k =? k0)%string eqn:E; [|auto].
    apply String.eqb_eq in E; subst k0.
    exfalso. apply Hn. apply in_map_iff. exists (k, v). auto.
Qed.

Lemma dict_of_items_NoDup {V} (items : list (string * V)) :
  NoDup (map fst (dict_of_items items)).
Proof.
  unfold dict_of_items.
  assert (H : forall d : dict V,
             NoDup (map fst d) ->
             NoDup (map fst (fold_left
                               (fun d kv => dict_set (fst kv) (snd kv) d)
                               items d))).
  { induction items as [|kv items IH]; intros d Hd; simpl; [exact Hd|].
    apply IH. apply dict_set_NoDup. exact Hd. }
  apply H. constructor.
Qed.

(** An entry of the variables of the [.env] file comes from a key of the
    file. *)
Lemma dotenv_vars_In (file : dotenv) (k : string) (v : option string) :
  In (k, v) (dotenv_vars file) ->
  exists items k0, file = Some items /\ In (k0, v) items /\ str_lower k0 = k.
Proof.
  destruct file as [items|]; simpl; [|contradiction].
  intros H. apply dict_In_get in H; [|apply dict_of_items_NoDup].
  rewrite parse_env_vars_get in H.
  destruct (last_casing_In _ _ _ H) as (k0 & Hin & Hk).
  exists items, k0. auto.
Qed.

Lemma dotenv_extra_skip (vars : dict (option string)) :
  (forall k v, In (k, Some v) vars -> v = "" \/ env_used k = true) ->
  forall data, dotenv_extra vars data = data.
Proof.
  unfold dotenv_extra.
  induction vars as [|[k0 [v0|]] vars IH]; intros H data; simpl.
  - reflexivity.
  - destruct (H k0 v0 (or_introl eq_refl)) as [-> | ->].
    + simpl. apply IH. intros; apply H; right; assumption.
    + rewrite !orb_true_r. apply IH. intros; apply H; right; assumption.
  - apply IH. intros; apply H; right; assumption.
Qed.

(** A silent file contributes nothing to the state. *)
Lemma file_silent_settings (file : dotenv) :
  file_silent file -> dotenv_settings file = Returns [].
Proof.
  intros [Hf Hx]. unfold dotenv_settings, bind.
  rewrite source_fields_none.
  - rewrite dotenv_extra_skip; [reflexivity|].
    intros k v Hin.
    destruct (dotenv_vars_In _ _ _ Hin) as (items & k0 & Hfile & Hin0 & Hk).
    destruct (Hx _ _ _ Hfile Hin0) as [H | H]; [left; exact H|].
    right. rewrite env_used_field, <- Hk. apply field_names_mem. exact H.
  - intros n a d Hin.
    assert (Hn : In n field_names) by (apply field_names_In; eauto).
    rewrite (dotenv_field _ _ Hn). apply Hf. exact Hn.
Qed.

(** The state of the environment source, when it returns: the entries of
    the fields the environment supplies, in declaration order. *)
Lemma build_values_silent (env : environ) (file : dotenv) (es : dict pyobj) :
  file_silent file -> env_settings env = Returns es ->
  settings_build_values env file = Returns (deep_update [] es).
Proof.
  intros Hf He. unfold settings_build_values, bind.
  rewrite He, (file_silent_settings _ Hf). reflexivity.
Qed.

(** C2.  When the process environment gives [secret_key] the text [key]
    (under any casing of the name), gives no text to any of the other six
    fields, and the [.env] file is silent, construction succeeds and every
    other field has its documented default. *)
Theorem defaults_when_only_secret_key (env : environ) (file : dotenv)
    (key : string) :
  env_text env "secret_key" = Some key ->
  (forall n,
      In n ["database_url"; "api_host"; "api_port"; "cors_origins";
            "algorithm"; "access_token_expire_minutes"] ->
      env_text env n = None) ->
  file_silent file ->
  Settings_new env file =
  Returns {| database_url := "file:./dev.db";
             api_host := "0.0.0.0";
             api_port := 8000;
             cors_origins := ["http://localhost:3000"];
             secret_key := key;
             algorithm := "HS256";
             access_token_expire_minutes := 30 |}.
Proof.
  intros Hkey Hnone Hfile.
  assert (Hes : env_settings env = Returns [("secret_key", PyStr key)]).
  { unfold env_settings, model_fields, field_entry.
    rewrite !source_fields_cons. unfold source_value.
    cbv [name annot default f_database_url f_api_host f_api_port
         f_cors_origins f_secret_key f_algorithm f_access_token_expire_minutes].
    rewrite !environ_field by (unfold field_names; simpl; auto 10).
    rewrite Hkey.
    rewrite !Hnone by (simpl; tauto).
    reflexivity. }
  unfold Settings_new, bind.
  rewrite (build_values_silent _ _ _ Hfile Hes). reflexivity.
Qed.

(** ** Where the values come from *)


(** ** Case of the variable names *)

Lemma environ_vars_casing (env1 env2 : environ) (k k' v : string) :
  str_lower k = str_lower k' ->
  environ_vars (env1 ++ (k, v) :: env2)%list
  = environ_vars (env1 ++ (k', v) :: env2)%list.
Proof.
  intros H. unfold environ_vars, parse_env_vars. simpl.
  rewrite !map_app. simpl. rewrite H. reflexivity.
Qed.

Lemma env_text_casing (env1 env2 : environ) (k v n : string) :
  str_lower k = n -> env_text env2 n = None ->
  env_text (env1 ++ (k, v) :: env2)%list n = Some v.
Proof.
  intros Hk H2. unfold env_text in *.
  rewrite last_casing_app, last_casing_cons, H2, Hk, String.eqb_refl.
  reflexivity.
Qed.

(** A field the state has an entry for is not reported missing. *)
Lemma validate_field_missing {A}
    (validator : list loc_item -> pyobj -> validated A) (f : Field A)
    (st : dict pyobj) (l : list loc_item) :
  (forall l' v e, In e (errors_of (validator l' v)) -> type e <> missing) ->
  In (mkError l missing) (errors_of (validate_field validator f st)) ->
  l = [LocKey (name f)] /\ default f = None /\ dict_get (name f) st = None.
Proof.
  intros Hv. unfold validate_field.
  destruct (dict_get (name f) st) as [v|].
  - intros H. exfalso. exact (Hv _ _ _ H eq_refl).
  - destruct (default f); simpl; [tauto|].
    intros [H | []]. inversion H. auto.
Qed.

Lemma str_validator_no_missing (l : list loc_item) (v : pyobj) (e : ErrorDetails) :
  In e (errors_of (str_validator l v)) -> type e <> missing.
Proof.
  destruct v; simpl; intros H; try tauto;
    destruct H as [<- | []]; discriminate.
Qed.

Lemma int_validator_no_missing (l : list loc_item) (v : pyobj) (e : ErrorDetails) :
  In e (errors_of (int_field_validator l v)) -> type e <> missing.
Proof.
  unfold int_field_validator. destruct (int_validator v) as [x|]; simpl; [|tauto].
  intros [<- | []]. destruct x; discriminate.
Qed.

Lemma list_validator_no_missing (l : list loc_item) (v : pyobj) (e : ErrorDetails) :
  In e (errors_of (list_str_validator l v)) -> type e <> missing.
Proof.
  destruct v; simpl; intros H;
    try (destruct H as [<- | []]; discriminate).
  rewrite (validate_items_types _ _ _ _ H). discriminate.
Qed.

(** The only [missing] error there can be is that of [secret_key]. *)
Lemma missing_in_state (st : dict pyobj) (errors : list ErrorDetails)
    (l : list loc_item) :
  model_validate st = inl errors ->
  In (mkError l missing) errors ->
  l = [LocKey "secret_key"] /\ dict_get "secret_key" st = None.
Proof.
  intros E H. rewrite (model_validate_inl _ _ E) in H.
  repeat rewrite in_app_iff in H.
  destruct H as [H|[H|[H|[H|[H|[H|[H|H]]]]]]].
  - apply validate_field_missing in H; [|apply str_validator_no_missing].
    destruct H as (_ & H & _). discriminate.
  - apply validate_field_missing in H; [|apply str_validator_no_missing].
    destruct H as (_ & H & _). discriminate.
  - apply validate_field_missing in H; [|apply int_validator_no_missing].
    destruct H as (_ & H & _). discriminate.
  - apply validate_field_missing in H; [|apply list_validator_no_missing].
    destruct H as (_ & H & _). discriminate.
  - apply validate_field_missing in H; [|apply str_validator_no_missing].
    destruct H as (H1 & _ & H2). auto.
  - apply validate_field_missing in H; [|apply str_validator_no_missing].
    destruct H as (_ & H & _). discriminate.
  - apply validate_field_missing in H; [|apply int_validator_no_missing].
    destruct H as (_ & H & _). discriminate.
  - apply extra_errors_type in H. discriminate.
Qed.

(** A construction whose environment gives [secret_key] a text reports
    no missing field. *)
Lemma supplied_not_missing (env : environ) (file : dotenv) (key : string)
    (errors : list ErrorDetails) (l : list loc_item) :
  env_text env "secret_key" = Some key ->
  Settings_new env file = Raises (ValidationError errors) ->
  ~ In (mkError l missing) errors.
Proof.
  intros Hk H Hin.
  apply Settings_new_validation_error in H. destruct H as (st & Hb & Hv).
  destruct (missing_in_state _ _ _ Hv Hin) as [_ Hst].
  apply (state_secret_key _ _ _ Hb) in Hst. destruct Hst as [He _].
  congruence.
Qed.

(** C5.  The name of an environment variable is matched without regard to
    case.  Take any field [n], any key [k] whose lower-cased form is [n]
    and any text [v].  An environment that sets [k] to [v] gives the same
    construction (the same settings object, or the same error) as the one
    that sets [n] itself to [v] at the same place.  And when no later
    variable is a casing of [n], the variable does supply the field: the
    environment's text for [n] is [v], a failed construction does not
    report [n] missing, and a successful one has the value of [v] at [n]
    (for [cors_origins], unless [v] is the JSON text [null]). *)
Theorem env_name_case_insensitive (env1 env2 : environ) (file : dotenv)
    (n : string) (a : annotation) (d : option value) (k v : string) :
  In (n, (a, d)) model_fields ->
  str_lower k = n ->
  let env := (env1 ++ (k, v) :: env2)%list in
  Settings_new env file = Settings_new (env1 ++ (n, v) :: env2)%list file /\
  (env_text env2 n = None ->
   env_text env n = Some v /\
   (forall errors,
       Settings_new env file = Raises (ValidationError errors) ->
       ~ In (mkError [LocKey n] missing) errors) /\
   (forall s raw,
       Settings_new env file = Returns s ->
       supplied a (Some v) = Some raw ->
       exists x, getattr s n = Some x /\ text_denotes a raw x)).
Proof.
  intros Hin Hk env. split.
  - unfold Settings_new, settings_build_values, env_settings. subst env.
    rewrite (environ_vars_casing env1 env2 k n v); [reflexivity|].
    rewrite Hk. symmetry. exact (proj1 (field_name_lower _ _ _ Hin)).
  - intros H2.
    assert (Hv : env_text env n = Some v)
      by (exact (env_text_casing env1 env2 k v n Hk H2)).
    split; [exact Hv|]. split.
    + intros errors Hr Hm.
      apply Settings_new_validation_error in Hr. destruct Hr as (st & Hb & Hx).
      destruct (missing_in_state _ _ _ Hx Hm) as [Hl Hst].
      inversion Hl; subst n.
      apply (state_secret_key _ _ _ Hb) in Hst. destruct Hst as [He _].
      congruence.
    + intros s raw Hs Hsup.
      pose proof (field_source _ _ _ Hs _ _ _ Hin) as P.
      rewrite Hv, Hsup in P. exact P.
Qed.

(** ** The port *)

Lemma state_keys (env : environ) (file : dotenv) (st : dict pyobj) (k : string) :
  settings_build_values env file = Returns st ->
  dict_mem k st = true ->
  dict_mem k model_fields = true \/
  exists ds,
    source_fields DotEnvSettingsSource (dotenv_vars file) model_fields []
    = Returns ds /\
    dict_mem k (dotenv_extra (dotenv_vars file) ds) = true.
Proof.
  intros Hb Hk.
  destruct (build_values_inv _ _ _ Hb) as (es & ds & Hes & Hds & ->).
  unfold dict_mem in *.
  rewrite deep_update_get in Hk
    by (eapply source_fields_NoDup; [|exact Hes]; constructor).
  rewrite (source_fields_get _ _ _ _ _ model_fields_NoDup Hes) in Hk.
  destruct (dict_get k model_fields) as [[a d]|]; [left; reflexivity|].
  simpl in Hk. right. exists ds. split; [exact Hds | exact Hk].
Qed.

Lemma state_has_extra (env : environ) (file : dotenv) (st ds : dict pyobj)
    (k : string) :
  settings_build_values env file = Returns st ->
  source_fields DotEnvSettingsSource (dotenv_vars file) model_fields []
  = Returns ds ->
  dict_mem k (dotenv_extra (dotenv_vars file) ds) = true ->
  dict_mem k st = true.
Proof.
  intros Hb Hds Hk.
  destruct (build_values_inv _ _ _ Hb) as (es & ds' & Hes & Hds' & ->).
  assert (ds' = ds) by congruence. subst ds'.
  unfold dict_mem in *.
  rewrite deep_update_get
    by (eapply source_fields_NoDup; [|exact Hes]; constructor).
  destruct (dict_get k es); [reflexivity | exact Hk].
Qed.

(** The state holds the environment's text of a field that is not complex. *)
Lemma state_env_text (env : environ) (file : dotenv) (st : dict pyobj)
    (n : string) (a : annotation) (d : option value) (raw : string) :
  In (n, (a, d)) model_fields -> is_complex a = false ->
  settings_build_values env file = Returns st ->
  env_text env n = Some raw ->
  dict_get n st = Some (PyStr raw).
Proof.
  intros Hin Hc Hb Hg.
  pose proof (state_get_supplied _ _ _ _ _ _ Hin Hb) as H.
  unfold supplied, prepare_field_value in H. rewrite Hg, Hc in H.
  destruct H as (v & Hv & [H | [o H]]); inversion Hv; subst v;
    rewrite H; [reflexivity|]. destruct o; reflexivity.
Qed.

(** C7, as the code has it.  [api_port] is an integer and is not checked
    against any range.  Start from any inputs on which construction
    succeeds, and change the process environment so that it gives
    [api_port] the decimal text of an integer [n], leaving the texts of the
    other fields as they were: as long as that text has at most 4300
    characters, construction still succeeds and [api_port] is [n], whatever
    [n] is: zero, negative, or beyond 65535. *)
Theorem api_port_unbounded (env env' : environ) (file : dotenv) (s : Settings)
    (n : Z) :
  Settings_new env file = Returns s ->
  (forall f, In f field_names -> f <> "api_port" ->
             env_text env' f = env_text env f) ->
  env_text env' "api_port" = Some (int_text n) ->
  (String.length (int_text n) <= 4300)%nat ->
  Settings_new env' file =
  Returns {| database_url := database_url s;
             api_host := api_host s;
             api_port := n;
             cors_origins := cors_origins s;
             secret_key := secret_key s;
             algorithm := algorithm s;
             access_token_expire_minutes := access_token_expire_minutes s |}.
Proof.
  intros H Hsame Hport Hlen.
  apply Settings_new_inv in H. destruct H as (st & Hb & Hv).
  destruct (build_values_inv _ _ _ Hb) as (es & ds & Hes & Hds & Hst).
  assert (Hgfv : forall f a d,
             In (f, (a, d)) model_fields -> f <> "api_port" ->
             get_field_value (environ_vars env') f
             = get_field_value (environ_vars env) f).
  { intros f a d Hin Hne.
    assert (Hn : In f field_names) by (apply field_names_In; eauto).
    rewrite !environ_field by exact Hn. apply Hsame; assumption. }
  (* the environment source still returns *)
  destruct (source_fields_returns EnvSettingsSource (environ_vars env') model_fields)
    with (data := @nil (string * pyobj)) as [es' Hes'].
  { intros f a d raw' Hin Hg Hc.
    pose proof (complex_field _ _ _ Hin Hc) as ->.
    rewrite (Hgfv _ _ _ Hin) in Hg by discriminate.
    exact (source_fields_decodes _ _ _ _ _ Hes _ _ _ _ Hin Hg Hc). }
  assert (Hb' : settings_build_values env' file
                = Returns (deep_update (dotenv_extra (dotenv_vars file) ds) es')).
  { unfold settings_build_values, env_settings, dotenv_settings, bind.
    rewrite Hes', Hds. reflexivity. }
  set (st' := deep_update (dotenv_extra (dotenv_vars file) ds) es') in *.
  (* the merged state is unchanged at the other fields *)
  assert (Hother : forall f a d,
             In (f, (a, d)) model_fields -> f <> "api_port" ->
             dict_get f st' = dict_get f st).
  { intros f a d Hin Hne.
    rewrite (state_get_field _ _ _ _ _ _ Hin Hb').
    rewrite (state_get_field _ _ _ _ _ _ Hin Hb).
    unfold source_value. rewrite (Hgfv _ _ _ Hin Hne). reflexivity. }
  assert (Hp : dict_get "api_port" st' = Some (PyStr (int_text n))).
  { exact (state_env_text env' file st' "api_port" Tint (Some (VInt 8000))
             (int_text n)
             (or_intror (or_intror (or_introl eq_refl))) eq_refl Hb' Hport). }
  apply Settings_new_inv. exists st'. split; [exact Hb'|].
  apply model_validate_inr in Hv.
  destruct Hv as (H1 & H2 & H3 & H4 & H5 & H6 & H7 & Hx).
  apply model_validate_inr. simpl.
  unfold validate_field in *.
  cbv [name default f_database_url f_api_host f_api_port f_cors_origins
       f_secret_key f_algorithm f_access_token_expire_minutes] in *.
  rewrite (Hother "database_url" Tstr (Some (VStr "file:./dev.db")))
    by (simpl; auto 10; discriminate).
  rewrite (Hother "api_host" Tstr (Some (VStr "0.0.0.0")))
    by (simpl; auto 10; discriminate).
  rewrite (Hother "cors_origins" Tlist_str (Some (VList ["http://localhost:3000"])))
    by (simpl; auto 10; discriminate).
  rewrite (Hother "secret_key" Tstr None) by (simpl; auto 10; discriminate).
  rewrite (Hother "algorithm" Tstr (Some (VStr "HS256")))
    by (simpl; auto 10; discriminate).
  rewrite (Hother "access_token_expire_minutes" Tint (Some (VInt 30)))
    by (simpl; auto 10; discriminate).
  rewrite Hp.
  repeat (split; [assumption|]).
  split; [apply int_field_validator_inr, int_validator_int_text; exact Hlen|].
  repeat (split; [assumption|]).
  apply extra_errors_nil. intros k Hk.
  destruct (state_keys _ _ _ _ Hb' Hk) as [Hf | (ds' & Hds' & Hk')]; [exact Hf|].
  apply (proj1 (extra_errors_nil st) Hx).
  eapply state_has_extra; eassumption.
Qed.

(** An integer text the validator refuses makes the model validator
    report the validator's error at the field. *)
Lemma int_state_rejected (env : environ) (file : dotenv) (f raw : string)
    (e : int_error) (st : dict pyobj) :
  f = "api_port" \/ f = "access_token_expire_minutes" ->
  env_text env f = Some raw ->
  int_validator (PyStr raw) = inl e ->
  settings_build_values env file = Returns st ->
  exists errors,
    model_validate st = inl errors /\
    In (mkError [LocKey f] (int_error_type e)) errors.
Proof.
  intros Hf Hg Hi Hb.
  assert (Hst : dict_get f st = Some (PyStr raw)).
  { destruct Hf as [-> | ->].
    - exact (state_env_text env file st "api_port" Tint (Some (VInt 8000)) raw
               (or_intror (or_intror (or_introl eq_refl))) eq_refl Hb Hg).
    - exact (state_env_text env file st "access_token_expire_minutes" Tint
               (Some (VInt 30)) raw
               (or_intror (or_intror (or_intror (or_intror (or_intror
                  (or_intror (or_introl eq_refl)))))))
               eq_refl Hb Hg). }
  apply model_validate_has.
  destruct Hf as [-> | ->]; [do 2 right; left | do 6 right; left];
    unfold validate_field; cbv [name f_api_port f_access_token_expire_minutes];
    rewrite Hst, (int_field_validator_inl _ _ _ Hi); simpl; auto.
Qed.

(** ** The invariants the code does not enforce *)

(** C3: the code accepts an empty [secret_key].  With [SECRET_KEY] set to
    the empty text and nothing else, construction succeeds and the
    settings object has the empty [secret_key]: the field is declared as a
    plain [str], and nothing checks its length. *)
Theorem empty_secret_key_accepted :
  Settings_new [("SECRET_KEY", "")] None =
  Returns {| database_url := "file:./dev.db";
             api_host := "0.0.0.0";
             api_port := 8000;
             cors_origins := ["http://localhost:3000"];
             secret_key := "";
             algorithm := "HS256";
             access_token_expire_minutes := 30 |}.
Proof.
  reflexivity.
Qed.

(** C4: the code accepts an empty [cors_origins].  With [CORS_ORIGINS] set
    to the JSON text of the empty list, construction succeeds and
    [cors_origins] is empty: the field is declared as a plain [list[str]],
    and nothing checks its length. *)
Theorem empty_cors_origins_accepted :
  json_loads "[]" = Some (PyList []) ->
  Settings_new [("SECRET_KEY", "k"); ("CORS_ORIGINS", "[]")] None =
  Returns {| database_url := "file:./dev.db";
             api_host := "0.0.0.0";
             api_port := 8000;
             cors_origins := [];
             secret_key := "k";
             algorithm := "HS256";
             access_token_expire_minutes := 30 |}.
Proof.
  intros H.
  unfold Settings_new, settings_build_values, env_settings, model_fields,
    field_entry.
  rewrite !source_fields_cons. unfold source_value.
  cbv [name annot default f_database_url f_api_host f_api_port
       f_cors_origins f_secret_key f_algorithm f_access_token_expire_minutes].
  rewrite !environ_field by (unfold field_names; simpl; auto 10).
  cbn [prepare_field_value is_complex]. 
  change (env_text [("SECRET_KEY", "k"); ("CORS_ORIGINS", "[]")] "cors_origins")
    with (Some "[]").
  change (env_text [("SECRET_KEY", "k"); ("CORS_ORIGINS", "[]")] "secret_key")
    with (Some "k").
  change (env_text [("SECRET_KEY", "k"); ("CORS_ORIGINS", "[]")] "database_url")
    with (@None string).
  change (env_text [("SECRET_KEY", "k"); ("CORS_ORIGINS", "[]")] "api_host")
    with (@None string).
  change (env_text [("SECRET_KEY", "k"); ("CORS_ORIGINS", "[]")] "api_port")
    with (@None string).
  change (env_text [("SECRET_KEY", "k"); ("CORS_ORIGINS", "[]")] "algorithm")
    with (@None string).
  change (env_text [("SECRET_KEY", "k"); ("CORS_ORIGINS", "[]")]
            "access_token_expire_minutes")
    with (@None string).
  unfold prepare_field_value. simpl. rewrite H. reflexivity.
Qed.

(** * Further properties of the loader *)


(** X2.  The keys of the [.env] file are matched without case as well:
    two files that differ only in the casing of one key give the same
    construction. *)
Theorem dotenv_key_case_insensitive (env : environ)
    (f1 f2 : list (string * option string)) (k k' : string) (v : option string) :
  str_lower k = str_lower k' ->
  Settings_new env (Some (f1 ++ (k, v) :: f2)%list) =
  Settings_new env (Some (f1 ++ (k', v) :: f2)%list).
Proof.
  intros H.
  assert (E : dotenv_vars (Some (f1 ++ (k, v) :: f2)%list)
              = dotenv_vars (Some (f1 ++ (k', v) :: f2)%list)).
  { unfold dotenv_vars, parse_env_vars. simpl.
    rewrite !map_app. simpl. rewrite H. reflexivity. }
  unfold Settings_new, settings_build_values, dotenv_settings.
  rewrite E. reflexivity.
Qed.

(** ** The errors of a failed construction *)

(** X3.  In the validation error of a failed construction, the only
    [missing] error there can be is that of [secret_key], and it is there
    exactly when neither the process environment nor the [.env] file gives
    [secret_key] a text. *)
Theorem missing_error_iff (env : environ) (file : dotenv)
    (errors : list ErrorDetails) (l : list loc_item) :
  Settings_new env file = Raises (ValidationError errors) ->
  (In (mkError l missing) errors <->
   l = [LocKey "secret_key"] /\
   env_text env "secret_key" = None /\
   file_text file "secret_key" = None).
Proof.
  intros H. apply Settings_new_validation_error in H.
  destruct H as (st & Hb & Hv). split.
  - intros Hin. destruct (missing_in_state _ _ _ Hv Hin) as [-> Hst].
    split; [reflexivity|]. apply (state_secret_key _ _ _ Hb). exact Hst.
  - intros (-> & He & Hf).
    assert (Hst : dict_get "secret_key" st = None)
      by (apply (state_secret_key _ _ _ Hb); auto).
    destruct (missing_secret_key_state st Hst) as (errors' & E & Hin).
    congruence.
Qed.

(** ** The test session *)

(** X4.  Under the environment conftest.py prepares, the process
    environment always supplies [secret_key], whatever the environment was
    before; so a construction in a test session never reports a missing
    field. *)
Theorem conftest_supplies_secret_key (env : environ) (file : dotenv) :
  (exists key,
      get_field_value (environ_vars (conftest_environ env)) "secret_key"
      = Some key) /\
  forall errors l,
    Settings_new (conftest_environ env) file = Raises (ValidationError errors) ->
    ~ In (mkError l missing) errors.
Proof.
  assert (Hsup : exists key,
             env_text (conftest_environ env) "secret_key" = Some key).
  { unfold conftest_environ, setdefault.
    destruct (dict_get "SECRET_KEY" env) as [v|] eqn:E.
    - apply (last_casing_some "secret_key" "SECRET_KEY" v);
        [apply dict_get_In; exact E | reflexivity].
    - apply (last_casing_some "secret_key" "SECRET_KEY"
               "test-secret-key-for-pytest");
        [apply dict_set_In | reflexivity]. }
  destruct Hsup as [key Hk]. split.
  - exists key. rewrite (environ_field _ _ secret_key_name). exact Hk.
  - intros errors l H. exact (supplied_not_missing _ _ _ _ _ Hk H).
Qed.

(** ** Texts that are rejected *)

(** X5.  A text for [cors_origins] in the process environment that is not
    JSON makes the construction raise the settings error of the
    environment source, whatever the other variables and the [.env] file
    hold. *)
Theorem cors_text_not_json_env (env : environ) (file : dotenv) (raw : string) :
  get_field_value (environ_vars env) "cors_origins" = Some raw ->
  json_loads raw = None ->
  Settings_new env file = Raises (SettingsError "cors_origins" EnvSettingsSource).
Proof.
  intros Hg Hj. unfold Settings_new, settings_build_values, env_settings, bind.
  destruct (source_fields EnvSettingsSource (environ_vars env)
              model_fields []) as [es|e] eqn:Hes.
  - exfalso.
    exact (source_fields_decodes _ _ _ _ _ Hes
             "cors_origins" Tlist_str (Some (VList ["http://localhost:3000"])) raw
             cors_origins_field Hg eq_refl Hj).
  - apply source_fields_raises in Hes.
    destruct Hes as (n & a & d & raw' & Hin & _ & Hc & _ & ->).
    rewrite (complex_field _ _ _ Hin Hc). reflexivity.
Qed.

(** X6.  The [.env] file is decoded even when the environment overrides
    it: if the environment's text for [cors_origins] is absent or JSON and
    the file's text for [cors_origins] is not JSON, the construction raises
    the settings error of the dotenv source. *)
Theorem cors_text_not_json_dotenv (env : environ) (file : dotenv) (raw : string) :
  (forall r, get_field_value (environ_vars env) "cors_origins" = Some r ->
             json_loads r <> None) ->
  get_field_value (dotenv_vars file) "cors_origins" = Some raw ->
  json_loads raw = None ->
  Settings_new env file
  = Raises (SettingsError "cors_origins" DotEnvSettingsSource).
Proof.
  intros He Hg Hj.
  unfold Settings_new, settings_build_values, env_settings, dotenv_settings, bind.
  destruct (source_fields_returns EnvSettingsSource (environ_vars env)
              model_fields) with (data := @nil (string * pyobj)) as [es ->].
  { intros n a d r Hin Hr Hc.
    rewrite (complex_field _ _ _ Hin Hc) in Hr. exact (He r Hr). }
  destruct (source_fields DotEnvSettingsSource (dotenv_vars file)
              model_fields []) as [ds|e] eqn:Hds.
  - exfalso.
    exact (source_fields_decodes _ _ _ _ _ Hds
             "cors_origins" Tlist_str (Some (VList ["http://localhost:3000"])) raw
             cors_origins_field Hg eq_refl Hj).
  - apply source_fields_raises in Hds.
    destruct Hds as (n & a & d & raw' & Hin & _ & Hc & _ & ->).
    rewrite (complex_field _ _ _ Hin Hc). reflexivity.
Qed.

(** X7.  A text the process environment gives [api_port] or
    [access_token_expire_minutes] that the integer validator refuses makes
    the construction fail, even if the [.env] file holds a valid one: the
    validation error holds the validator's error at the field
    ([int_parsing], or [int_parsing_size] for a text of more than 4300
    digits), unless a source already raised the settings error of
    [cors_origins]. *)
Theorem integer_text_rejected (env : environ) (file : dotenv) (f raw : string)
    (e : int_error) :
  f = "api_port" \/ f = "access_token_expire_minutes" ->
  env_text env f = Some raw ->
  int_validator (PyStr raw) = inl e ->
  exists x,
    Settings_new env file = Raises x /\
    match x with
    | ValidationError errors =>
        In (mkError [LocKey f] (int_error_type e)) errors
    | SettingsError n _ => n = "cors_origins"
    end.
Proof.
  intros Hf Hg Hi.
  destruct (Settings_new_reports env file
              (mkError [LocKey f] (int_error_type e))) as (x & Hr & Hx).
  { intros st Hb. exact (int_state_rejected _ _ _ _ _ _ Hf Hg Hi Hb). }
  exists x. split; [exact Hr|].
  destruct x as [n src|errors]; [exact (proj1 Hx) | exact Hx].
Qed.

Lemma supplied_json (a : annotation) (raw : string) (j : pyobj) :
  is_complex a = true -> json_loads raw = Some j -> j <> PyNone ->
  supplied a (Some raw) = Some raw.
Proof.
  intros Ha Hj Hn. unfold supplied. rewrite Ha, Hj.
  destruct j; try reflexivity. exfalso. apply Hn. reflexivity.
Qed.

(** X8.  A text the process environment gives [cors_origins] that is JSON
    but neither a list nor [null] (a quoted string, a number, an object)
    makes the construction fail: the validation error holds the
    [list_type] error of [cors_origins], unless the dotenv source raised
    the settings error of [cors_origins]. *)
Theorem cors_json_not_list_rejected (env : environ) (file : dotenv)
    (raw : string) (j : pyobj) :
  env_text env "cors_origins" = Some raw ->
  json_loads raw = Some j ->
  j <> PyNone ->
  (forall items, j <> PyList items) ->
  exists x,
    Settings_new env file = Raises x /\
    match x with
    | ValidationError errors =>
        In (mkError [LocKey "cors_origins"] list_type) errors
    | SettingsError n src => n = "cors_origins" /\ src = DotEnvSettingsSource
    end.
Proof.
  intros Hg Hj Hn Hl.
  destruct (Settings_new_reports env file
              (mkError [LocKey "cors_origins"] list_type)) as (x & Hr & Hx).
  { intros st Hb.
    pose proof (state_get_supplied _ _ _ _ _ _ cors_origins_field Hb) as H.
    rewrite Hg, (supplied_json Tlist_str _ _ eq_refl Hj Hn) in H.
    destruct H as (v & Hv & Hm).
    simpl in Hv. rewrite Hj in Hv. inversion Hv; subst v.
    assert (Hst : exists m, dict_get "cors_origins" st = Some m /\
                            forall items, m <> PyList items).
    { assert (Hm' : exists m, dict_get "cors_origins" st = Some m /\
                               (m = j \/ exists o, m = deep_update_value o j)).
      { destruct Hm as [Hm | [o Hm]]; eexists; (split; [exact Hm|]);
          [left; reflexivity | right; exists o; reflexivity]. }
      destruct Hm' as (m & Hget & Hm').
      exists m. split; [exact Hget|].
      destruct (merged_value _ _ Hm') as [-> | [items ->]];
        [exact Hl | discriminate]. }
    destruct Hst as (m & Hst & Hnl).
    apply model_validate_has.
    do 3 right; left. unfold validate_field. cbv [name f_cors_origins].
    rewrite Hst. destruct m; simpl; auto. exfalso. eapply Hnl; reflexivity. }
  exists x. split; [exact Hr|].
  destruct x as [n src|errors]; [|exact Hx].
  destruct Hx as (-> & r & Hsrc & Hr').
  split; [reflexivity|].
  destruct src; [|reflexivity]. congruence.
Qed.

(** ** Keys of the [.env] file that are no field *)

Lemma dotenv_extra_mono (vars : dict (option string)) (k : string) :
  forall data,
    dict_mem k data = true -> dict_mem k (dotenv_extra vars data) = true.
Proof.
  unfold dotenv_extra.
  induction vars as [|[k0 [v0|]] vars IH]; intros data H; simpl; auto.
  destruct ((v0 =? "")%string || dict_mem k0 data || env_used k0); auto.
  apply IH. unfold dict_mem in *. rewrite dict_get_set.
  destruct (k =? k0)%string; [reflexivity | exact H].
Qed.

Lemma dotenv_extra_cons (k : string) (v : string)
    (vars : dict (option string)) (data : dict pyobj) :
  dotenv_extra ((k, Some v) :: vars) data =
  dotenv_extra vars
    (if (v =? "")%string || dict_mem k data || env_used k
     then data else dict_set k (PyStr v) data).
Proof. reflexivity. Qed.

Lemma dotenv_extra_adds (vars : dict (option string)) (k v : string) :
  dict_get k vars = Some (Some v) -> v <> "" -> env_used k = false ->
  forall data, dict_mem k (dotenv_extra vars data) = true.
Proof.
  intros Hg Hv Hu.
  induction vars as [|[k0 v0] vars IH]; intros data; simpl in Hg; [discriminate|].
  destruct (k =? k0)%string eqn:E.
  - apply String.eqb_eq in E; subst k0. inversion Hg; subst v0.
    rewrite dotenv_extra_cons.
    apply dotenv_extra_mono.
    apply String.eqb_neq in Hv. rewrite Hv, Hu. simpl.
    destruct (dict_mem k data) eqn:Em; simpl; [exact Em|].
    unfold dict_mem. rewrite dict_get_set, String.eqb_refl. reflexivity.
  - destruct v0 as [v0|]; [|apply IH; exact Hg].
    rewrite dotenv_extra_cons.
    apply IH; exact Hg.
Qed.

(** X9.  A name that is no field name and to which the [.env] file gives
    a non-empty text makes the construction fail: the validation error
    holds the [extra_forbidden] error of the name (unless a source already
    raised the settings error of [cors_origins]).  This includes a name
    that starts with the name of a field.  Compare X1: the same name in
    the process environment is ignored. *)
Theorem dotenv_unknown_key_rejected (env : environ) (file : dotenv)
    (n v : string) :
  file_text file n = Some v ->
  v <> "" ->
  dict_mem n model_fields = false ->
  exists x,
    Settings_new env file = Raises x /\
    match x with
    | ValidationError errors => In (mkError [LocKey n] extra_forbidden) errors
    | SettingsError m _ => m = "cors_origins"
    end.
Proof.
  intros Hg Hv Hu.
  destruct (Settings_new_reports env file
              (mkError [LocKey n] extra_forbidden)) as (x & Hr & Hx).
  { intros st Hb.
    destruct (build_values_inv _ _ _ Hb) as (es & ds & Hes & Hds & _).
    assert (Hk : dict_get n (dotenv_vars file) = Some (Some v)).
    { rewrite <- dotenv_vars_get in Hg.
      destruct (dict_get n (dotenv_vars file)) as [o|]; [|discriminate].
      congruence. }
    assert (Hmem : dict_mem n st = true).
    { eapply state_has_extra; [exact Hb | exact Hds|].
      eapply dotenv_extra_adds; [exact Hk | exact Hv|].
      rewrite env_used_field. exact Hu. }
    apply model_validate_has.
    do 7 right. apply extra_errors_In; assumption. }
  exists x. split; [exact Hr|].
  destruct x as [m src|errors]; [exact (proj1 Hx) | exact Hx].
Qed.

(** ** Constructions that succeed *)

(** X10.  With a silent [.env] file, the construction succeeds as soon as
    the process environment supplies [secret_key], every integer text it
    holds is accepted by the integer validator and its text for
    [cors_origins], if any, decodes to a JSON list of strings.  Each field
    then has the value read from its variable, or its default when the
    variable is not set; string fields take their text as it is. *)
Theorem valid_environment_constructs (env : environ) (file : dotenv)
    (key : string) (port minutes : Z) (origins : list string) :
  file_silent file ->
  env_text env "secret_key" = Some key ->
  match env_text env "api_port" with
  | Some raw => int_validator (PyStr raw) = inr port
  | None => port = 8000%Z
  end ->
  match env_text env "access_token_expire_minutes" with
  | Some raw => int_validator (PyStr raw) = inr minutes
  | None => minutes = 30%Z
  end ->
  match env_text env "cors_origins" with
  | Some raw => json_loads raw = Some (PyList (map PyStr origins))
  | None => origins = ["http://localhost:3000"]
  end ->
  Settings_new env file =
  Returns
    {| database_url :=
         match env_text env "database_url" with
         | Some raw => raw
         | None => "file:./dev.db"
         end;
       api_host :=
         match env_text env "api_host" with
         | Some raw => raw
         | None => "0.0.0.0"
         end;
       api_port := port;
       cors_origins := origins;
       secret_key := key;
       algorithm :=
         match env_text env "algorithm" with
         | Some raw => raw
         | None => "HS256"
         end;
       access_token_expire_minutes := minutes |}.
Proof.
  intros Hfile Hkey Hport Hmin Hcors.
  destruct (source_fields_returns EnvSettingsSource (environ_vars env)
              model_fields) with (data := @nil (string * pyobj)) as [es Hes].
  { intros n a d r Hin Hr Hc.
    rewrite (complex_field _ _ _ Hin Hc) in Hr.
    rewrite (environ_field _ _ cors_origins_name) in Hr.
    rewrite Hr in Hcors. congruence. }
  assert (Hb : settings_build_values env file = Returns (deep_update [] es))
    by (apply build_values_silent; assumption).
  assert (Hlook : forall k,
             dict_get k (deep_update [] es) =
             match dict_get k model_fields with
             | Some (a, _) => source_value (environ_vars env) k a
             | None => None
             end).
  { intros k.
    rewrite deep_update_get
      by (eapply source_fields_NoDup; [|exact Hes]; constructor).
    rewrite (source_fields_get _ _ _ _ _ model_fields_NoDup Hes).
    destruct (dict_get k model_fields) as [[a d]|]; [|reflexivity].
    destruct (source_value (environ_vars env) k a); reflexivity. }
  apply Settings_new_inv. exists (deep_update [] es). split; [exact Hb|].
  apply model_validate_inr. simpl.
  unfold validate_field.
  cbv [name default f_database_url f_api_host f_api_port f_cors_origins
       f_secret_key f_algorithm f_access_token_expire_minutes].
  rewrite !Hlook. simpl. unfold source_value.
  rewrite !environ_field by (unfold field_names; simpl; auto 10).
  rewrite Hkey. simpl.
  repeat split.
  - destruct (env_text env "database_url"); reflexivity.
  - destruct (env_text env "api_host"); reflexivity.
  - destruct (env_text env "api_port"); simpl.
    + apply int_field_validator_inr. exact Hport.
    + congruence.
  - destruct (env_text env "cors_origins"); simpl.
    + rewrite Hcors. simpl. apply validate_items_map.
    + congruence.
  - destruct (env_text env "algorithm"); reflexivity.
  - destruct (env_text env "access_token_expire_minutes"); simpl.
    + apply int_field_validator_inr. exact Hmin.
    + congruence.
  - apply extra_errors_nil. intros k Hk. unfold dict_mem in *.
    rewrite Hlook in Hk.
    destruct (dict_get k model_fields); [reflexivity | discriminate].
Qed.

End LoaderFacts.

(** * Concrete constructions

    The properties above at concrete inputs, run with the reference
    instances: the inputs are ASCII, so [str_lower] is [ascii_lower] on them. *)

(** C1 as the spec states it fails: with [CORS_ORIGINS=http://localhost:3000]
    (a text that is not JSON) and no [secret_key] anywhere, construction
    raises the settings error of [cors_origins], which is no validation
    error and does not name [secret_key]. *)
Lemma missing_secret_key_not_always_reported :
  env_text ascii_lower [("CORS_ORIGINS", "http://localhost:3000")] "secret_key"
  = None /\
  file_text ascii_lower None "secret_key" = None /\
  Settings_new ascii_lower ref_json_loads ref_int_other
    [("CORS_ORIGINS", "http://localhost:3000")] None
  = Raises (SettingsError "cors_origins" EnvSettingsSource) /\
  ~ In "secret_key" (exn_lines (SettingsError "cors_origins" EnvSettingsSource)).
Proof.
  repeat split; try reflexivity.
  vm_compute. intros [H | []]. discriminate H.
Qed.

Lemma missing_secret_key_raises_witness :
  exists e,
    Settings_new ascii_lower ref_json_loads ref_int_other
      [("API_PORT", "8080"); ("PATH", "/usr/bin")]
      (Some [("DATABASE_URL", Some "file:./test.db")])
    = Raises e /\
    match e with
    | ValidationError errors =>
        In (mkError [LocKey "secret_key"] missing) errors /\
        In "secret_key" (exn_lines e)
    | SettingsError n src =>
        n = "cors_origins" /\
        exists raw,
          match src with
          | EnvSettingsSource =>
              env_text ascii_lower [("API_PORT", "8080"); ("PATH", "/usr/bin")]
                "cors_origins"
          | DotEnvSettingsSource =>
              file_text ascii_lower (Some [("DATABASE_URL", Some "file:./test.db")])
                "cors_origins"
          end = Some raw /\
          ref_json_loads raw = None
    end.
Proof.
  apply (missing_secret_key_raises ascii_lower ref_json_loads ref_int_other
           [("API_PORT", "8080"); ("PATH", "/usr/bin")]
           (Some [("DATABASE_URL", Some "file:./test.db")])); reflexivity.
Defined.

Lemma file_silent_None (unicode_lower : string -> string) :
  file_silent unicode_lower None.
Proof.
  split; [reflexivity | discriminate].
Qed.

Lemma defaults_when_only_secret_key_witness :
  Settings_new ascii_lower ref_json_loads ref_int_other
    [("PATH", "/usr/bin"); ("SECRET_KEY", "test-secret-key")] None
  = Returns {| database_url := "file:./dev.db";
               api_host := "0.0.0.0";
               api_port := 8000;
               cors_origins := ["http://localhost:3000"];
               secret_key := "test-secret-key";
               algorithm := "HS256";
               access_token_expire_minutes := 30 |}.
Proof.
  apply defaults_when_only_secret_key.
  - reflexivity.
  - intros n Hn. simpl in Hn.
    repeat (destruct Hn as [<- | Hn]; [reflexivity|]). contradiction.
  - apply file_silent_None.
Defined.

Lemma empty_cors_origins_accepted_witness :
  Settings_new ascii_lower ref_json_loads ref_int_other
    [("SECRET_KEY", "k"); ("CORS_ORIGINS", "[]")] None
  = Returns {| database_url := "file:./dev.db";
               api_host := "0.0.0.0";
               api_port := 8000;
               cors_origins := [];
               secret_key := "k";
               algorithm := "HS256";
               access_token_expire_minutes := 30 |}.
Proof.
  exact (empty_cors_origins_accepted ascii_lower ref_json_loads ref_int_other eq_refl).
Defined.

Lemma env_name_case_insensitive_witness :
  let env := [("PATH", "/usr/bin"); ("Secret_Key", "abc")] in
  let s := {| database_url := "file:./dev.db";
              api_host := "0.0.0.0";
              api_port := 8000;
              cors_origins := ["http://localhost:3000"];
              secret_key := "abc";
              algorithm := "HS256";
              access_token_expire_minutes := 30 |} in
  Settings_new ascii_lower ref_json_loads ref_int_other env None =
  Settings_new ascii_lower ref_json_loads ref_int_other
    [("PATH", "/usr/bin"); ("secret_key", "abc")] None /\
  env_text ascii_lower env "secret_key" = Some "abc" /\
  Settings_new ascii_lower ref_json_loads ref_int_other env None = Returns s /\
  exists x,
    getattr s "secret_key" = Some x /\
    text_denotes ref_json_loads ref_int_other Tstr "abc" x.
Proof.
  intros env s.
  destruct (env_name_case_insensitive ascii_lower ref_json_loads ref_int_other
              [("PATH", "/usr/bin")] [] None "secret_key" Tstr None
              "Secret_Key" "abc"
              (or_intror (or_intror (or_intror (or_intror (or_introl eq_refl)))))
              eq_refl) as [H1 H2].
  destruct (H2 eq_refl) as (H3 & _ & H5).
  split; [exact H1|]. split; [exact H3|]. split; [reflexivity|].
  exact (H5 s "abc" eq_refl eq_refl).
Defined.


Lemma api_port_unbounded_witness :
  Settings_new ascii_lower ref_json_loads ref_int_other
    [("SECRET_KEY", "k"); ("API_PORT", "70000")] None
  = Returns {| database_url := "file:./dev.db";
               api_host := "0.0.0.0";
               api_port := 70000;
               cors_origins := ["http://localhost:3000"];
               secret_key := "k";
               algorithm := "HS256";
               access_token_expire_minutes := 30 |}.
Proof.
  apply (api_port_unbounded ascii_lower ref_json_loads ref_int_other
           [("SECRET_KEY", "k")] [("SECRET_KEY", "k"); ("API_PORT", "70000")]
           None
           {| database_url := "file:./dev.db";
              api_host := "0.0.0.0";
              api_port := 8000;
              cors_origins := ["http://localhost:3000"];
              secret_key := "k";
              algorithm := "HS256";
              access_token_expire_minutes := 30 |}
           70000).
  - reflexivity.
  - intros f Hin Hne. unfold field_names in Hin. simpl in Hin.
    repeat (destruct Hin as [<- | Hin];
            [try reflexivity; exfalso; apply Hne; reflexivity|]).
    contradiction.
  - reflexivity.
  - vm_compute. lia.
Defined.

(** The ports 0 and -1 are accepted as well. *)
Lemma api_port_zero_accepted :
  (exists s,
      Settings_new ascii_lower ref_json_loads ref_int_other
        [("SECRET_KEY", "k"); ("API_PORT", "0")] None = Returns s /\
      api_port s = 0%Z) /\
  (exists s,
      Settings_new ascii_lower ref_json_loads ref_int_other
        [("SECRET_KEY", "k"); ("API_PORT", "-1")] None = Returns s /\
      api_port s = (-1)%Z).
Proof.
  split; eexists; split; reflexivity.
Qed.

(** C7 as the spec states it fails: not every integer-valued [API_PORT]
    is accepted.  The decimal text of ten to the power 4300 is canonical,
    and with it construction raises a validation error that holds the
    [int_parsing_size] error of [api_port]. *)
Lemma api_port_size_limit :
  (exists n, decimal_value ten_pow_4300 = Some n) /\
  exists errors,
    Settings_new ascii_lower ref_json_loads ref_int_other
      [("SECRET_KEY", "k"); ("API_PORT", ten_pow_4300)] None
    = Raises (ValidationError errors) /\
    In (mkError [LocKey "api_port"] int_parsing_size) errors.
Proof.
  assert (Hd : exists d,
             NilZero.int_of_string ten_pow_4300 = Some d /\ Decimal.norm d = d).
  { eexists. split; vm_compute; reflexivity. }
  destruct Hd as (d & Hs & Hn). split.
  - exists (Z.of_int d). exact (decimal_value_norm _ _ Hs Hn).
  - assert (Hi : int_validator ref_int_other (PyStr ten_pow_4300)
                 = inl IntParsingSize).
    { apply (int_validator_size ref_int_other _ d Hs Hn).
      apply Nat.ltb_lt. vm_compute. reflexivity. }
    destruct (Settings_new_reports ascii_lower ref_json_loads ref_int_other
                [("SECRET_KEY", "k"); ("API_PORT", ten_pow_4300)] None
                (mkError [LocKey "api_port"] int_parsing_size))
      as (x & Hr & Hx).
    { intros st Hb.
      exact (int_state_rejected ascii_lower ref_json_loads ref_int_other
               [("SECRET_KEY", "k"); ("API_PORT", ten_pow_4300)] None
               "api_port" ten_pow_4300 IntParsingSize st
               (or_introl eq_refl) eq_refl Hi Hb). }
    destruct x as [n src|errors].
    + exfalso. destruct Hx as (_ & raw & Hraw & _).
      destruct src; discriminate Hraw.
    + exists errors. split; [exact Hr | exact Hx].
Qed.

(** * Concrete instances of the further properties *)


Lemma dotenv_key_case_insensitive_witness :
  Settings_new ascii_lower ref_json_loads ref_int_other [("SECRET_KEY", "k")]
    (Some [("Api_Host", Some "127.0.0.1")]) =
  Settings_new ascii_lower ref_json_loads ref_int_other [("SECRET_KEY", "k")]
    (Some [("API_HOST", Some "127.0.0.1")]).
Proof.
  exact (dotenv_key_case_insensitive ascii_lower ref_json_loads ref_int_other
           [("SECRET_KEY", "k")] [] [] "Api_Host" "API_HOST"
           (Some "127.0.0.1") eq_refl).
Defined.

Lemma missing_error_iff_witness :
  Settings_new ascii_lower ref_json_loads ref_int_other [("API_PORT", "x")] None
  = Raises (ValidationError
              [mkError [LocKey "api_port"] int_parsing;
               mkError [LocKey "secret_key"] missing]) /\
  (In (mkError [LocKey "secret_key"] missing)
     [mkError [LocKey "api_port"] int_parsing;
      mkError [LocKey "secret_key"] missing] <->
   [LocKey "secret_key"] = [LocKey "secret_key"] /\
   env_text ascii_lower [("API_PORT", "x")] "secret_key" = None /\
   file_text ascii_lower None "secret_key" = None).
Proof.
  split; [reflexivity|].
  exact (missing_error_iff ascii_lower ref_json_loads ref_int_other
           [("API_PORT", "x")] None _ [LocKey "secret_key"] eq_refl).
Defined.

Lemma cors_text_not_json_env_witness :
  Settings_new ascii_lower ref_json_loads ref_int_other
    [("SECRET_KEY", "k"); ("CORS_ORIGINS", "http://localhost:3000")] None
  = Raises (SettingsError "cors_origins" EnvSettingsSource).
Proof.
  exact (cors_text_not_json_env ascii_lower ref_json_loads ref_int_other
           [("SECRET_KEY", "k"); ("CORS_ORIGINS", "http://localhost:3000")]
           None "http://localhost:3000" eq_refl eq_refl).
Defined.

Lemma cors_text_not_json_dotenv_witness :
  Settings_new ascii_lower ref_json_loads ref_int_other
    [("SECRET_KEY", "k"); ("CORS_ORIGINS", "[]")]
    (Some [("CORS_ORIGINS", Some "http://localhost:5173")])
  = Raises (SettingsError "cors_origins" DotEnvSettingsSource).
Proof.
  apply (cors_text_not_json_dotenv ascii_lower ref_json_loads ref_int_other
           [("SECRET_KEY", "k"); ("CORS_ORIGINS", "[]")]
           (Some [("CORS_ORIGINS", Some "http://localhost:5173")])
           "http://localhost:5173").
  - intros r H. vm_compute in H. inversion H; subst r. vm_compute. discriminate.
  - reflexivity.
  - reflexivity.
Defined.

Lemma integer_text_rejected_witness :
  exists x,
    Settings_new ascii_lower ref_json_loads ref_int_other
      [("SECRET_KEY", "k"); ("API_PORT", "eighty")]
      (Some [("API_PORT", Some "8000")]) = Raises x /\
    match x with
    | ValidationError errors => In (mkError [LocKey "api_port"] int_parsing) errors
    | SettingsError n _ => n = "cors_origins"
    end.
Proof.
  exact (integer_text_rejected ascii_lower ref_json_loads ref_int_other
           [("SECRET_KEY", "k"); ("API_PORT", "eighty")]
           (Some [("API_PORT", Some "8000")]) "api_port" "eighty" IntParsing
           (or_introl eq_refl) eq_refl eq_refl).
Defined.

Lemma cors_json_not_list_rejected_witness :
  exists x,
    Settings_new ascii_lower ref_json_loads ref_int_other
      [("SECRET_KEY", "k"); ("CORS_ORIGINS", quoted "http://localhost:3000")]
      None = Raises x /\
    match x with
    | ValidationError errors =>
        In (mkError [LocKey "cors_origins"] list_type) errors
    | SettingsError n src => n = "cors_origins" /\ src = DotEnvSettingsSource
    end.
Proof.
  apply (cors_json_not_list_rejected ascii_lower ref_json_loads ref_int_other
           [("SECRET_KEY", "k"); ("CORS_ORIGINS", quoted "http://localhost:3000")]
           None (quoted "http://localhost:3000") (PyStr "http://localhost:3000")).
  - reflexivity.
  - reflexivity.
  - discriminate.
  - intros items H. discriminate H.
Defined.

Lemma dotenv_unknown_key_rejected_witness :
  exists x,
    Settings_new ascii_lower ref_json_loads ref_int_other [("SECRET_KEY", "k")]
      (Some [("CORS_ORIGINS_EXTRA", Some "x")]) = Raises x /\
    match x with
    | ValidationError errors =>
        In (mkError [LocKey "cors_origins_extra"] extra_forbidden) errors
    | SettingsError n _ => n = "cors_origins"
    end.
Proof.
  apply (dotenv_unknown_key_rejected ascii_lower ref_json_loads ref_int_other
           [("SECRET_KEY", "k")] (Some [("CORS_ORIGINS_EXTRA", Some "x")])
           "cors_origins_extra" "x").
  - reflexivity.
  - discriminate.
  - reflexivity.
Defined.

Lemma valid_environment_constructs_witness :
  Settings_new ascii_lower ref_json_loads ref_int_other
    [("SECRET_KEY", "k"); ("API_PORT", "9000"); ("CORS_ORIGINS", "[]");
     ("DATABASE_URL", "file:./prod.db")]
    (Some [("DEBUG", Some "")])
  = Returns {| database_url := "file:./prod.db";
               api_host := "0.0.0.0";
               api_port := 9000;
               cors_origins := [];
               secret_key := "k";
               algorithm := "HS256";
               access_token_expire_minutes := 30 |}.
Proof.
  apply (valid_environment_constructs ascii_lower ref_json_loads ref_int_other
           [("SECRET_KEY", "k"); ("API_PORT", "9000"); ("CORS_ORIGINS", "[]");
            ("DATABASE_URL", "file:./prod.db")]
           (Some [("DEBUG", Some "")]) "k" 9000 30 []).
  - split.
    + intros n Hn. unfold field_names in Hn. simpl in Hn.
      repeat (destruct Hn as [<- | Hn]; [reflexivity|]). contradiction.
    + intros items k v Hf Hin. inversion Hf; subst items.
      destruct Hin as [Hin | []]. inversion Hin. left. reflexivity.
  - reflexivity.
  - reflexivity.
  - reflexivity.
  - reflexivity.
Defined.

(** * The HTTP application *)

Section ApplicationFacts.

Variable preflight_response :
  CORSMiddleware -> list (string * string) -> Response.
Variable simple_headers :
  CORSMiddleware -> list (string * string) -> list (string * string).
Variable docs_endpoint : string -> Request -> Response.

(** C8.  Whatever the settings object, the query string, the headers and
    the body of the request, [GET /] answers 200 with the JSON body
    [{message: Hello World!}] and [GET /health] answers 200 with the JSON
    body [{status: healthy}]. *)
Theorem root_and_health_responses (s : Settings) (q : string)
    (hs : list (string * string)) (b : string) :
  let call p :=
    app_call preflight_response simple_headers
      (main docs_endpoint s)
      {| method := "GET"; path := p; query_string := q;
         headers := hs; body := b |} in
  status_code (call "/") = 200%Z /\
  response_content (call "/")
    = JSONContent (PyDict [("message", PyStr "Hello World!")]) /\
  status_code (call "/health") = 200%Z /\
  response_content (call "/health")
    = JSONContent (PyDict [("status", PyStr "healthy")]).
Proof.
  unfold app_call, main. simpl. unfold cors_call. simpl.
  destruct (header_get "origin" hs); repeat split; reflexivity.
Qed.

(** C9.  The application has exactly one user middleware: the CORS
    middleware with the origins of the settings object, credentials
    allowed, and the wildcard for methods and for headers.  Every request,
    whatever its route, goes through that one middleware: a request without
    [Origin] gets the router's response, a preflight request gets the
    middleware's preflight response, and any other request gets the
    router's response with the middleware's headers added. *)
Theorem single_cors_policy (s : Settings) :
  let policy := {| allow_origins := cors_origins s;
                   allow_credentials := true;
                   allow_methods := ["*"];
                   allow_headers := ["*"] |} in
  let app := main docs_endpoint s in
  user_middleware app = [Middleware_CORS policy] /\
  forall req,
    app_call preflight_response simple_headers app req
    = cors_call preflight_response simple_headers policy (router (routes app)) req /\
    match header_get "origin" (headers req) with
    | None =>
        app_call preflight_response simple_headers app req
        = router (routes app) req
    | Some _ =>
        app_call preflight_response simple_headers app req
        = preflight_response policy (headers req) \/
        response_headers (app_call preflight_response simple_headers app req)
        = (response_headers (router (routes app) req)
           ++ simple_headers policy (headers req))%list
    end.
Proof.
  intros policy app. split; [reflexivity|].
  intros req. split; [reflexivity|].
  unfold app, main, app_call. simpl. unfold cors_call.
  destruct (header_get "origin" (headers req)); [|reflexivity].
  match goal with
  | |- context [if ?c then _ else _] => destruct c
  end; [left | right]; reflexivity.
Qed.

(** * Further properties of the application *)

Local Arguments String.eqb : simpl nomatch.

(** Outside a preflight, the middleware leaves status and content of the
    router's response as they are. *)
Lemma app_call_not_preflight (s : Settings) (req : Request) :
  is_preflight req = false ->
  status_code (app_call preflight_response simple_headers (main docs_endpoint s) req)
  = status_code (router (routes (main docs_endpoint s)) req) /\
  response_content
    (app_call preflight_response simple_headers (main docs_endpoint s) req)
  = response_content (router (routes (main docs_endpoint s)) req).
Proof.
  intros H. unfold app_call, main. cbn [user_middleware add_middleware get
    fold_right middleware_call]. unfold cors_call.
  unfold is_preflight in H.
  destruct (header_get "origin" (headers req)); [|split; reflexivity].
  rewrite H. split; reflexivity.
Qed.

Lemma matches_none (r : Route) (m p : string) :
  path_match (route_path r) p = false -> matches r m p = MatchNone.
Proof.
  intros H. unfold matches. rewrite H. reflexivity.
Qed.

Lemma matches_some (r : Route) (m p : string) :
  path_match (route_path r) p = true ->
  match matches r m p with MatchNone => false | _ => true end = true.
Proof.
  intros H. unfold matches. rewrite H.
  destruct (existsb (String.eqb m) (route_methods r)); reflexivity.
Qed.

Lemma path_match_refl (rp : string) : path_match rp rp = true.
Proof.
  unfold path_match. rewrite String.eqb_refl. reflexivity.
Qed.

(** The paths of the routes of the application are [route_paths]. *)
Lemma main_route_paths (s : Settings) :
  map route_path (routes (main docs_endpoint s)) = route_paths.
Proof. reflexivity. Qed.

(** No route matches a path that matches no route path. *)
Lemma find_route_none (rs : list Route) (m p : string) :
  (forall rp, In rp (map route_path rs) -> path_match rp p = false) ->
  find_route rs m p None = NotFound.
Proof.
  induction rs as [|r rs IH]; intros H; simpl; [reflexivity|].
  rewrite matches_none by (apply H; left; reflexivity).
  apply IH. intros rp Hrp. apply H. right. exact Hrp.
Qed.

Lemma existsb_matches (rs : list Route) (m p : string) :
  existsb
    (fun r => match matches r m p with MatchNone => false | _ => true end) rs
  = existsb (fun rp => path_match rp p) (map route_path rs).
Proof.
  induction rs as [|r rs IH]; simpl; [reflexivity|].
  rewrite IH. f_equal. unfold matches.
  destruct (path_match (route_path r) p); [|reflexivity].
  destruct (existsb (String.eqb m) (route_methods r)); reflexivity.
Qed.

(** X11.  The two declared routes answer [GET] only: any other method on
    [/] or [/health], outside a CORS preflight, gets 405 with the detail
    [Method Not Allowed], never the handler's body. *)
Theorem other_methods_not_allowed (s : Settings) (req : Request) :
  path req = "/" \/ path req = "/health" ->
  method req <> "GET" ->
  is_preflight req = false ->
  let r := app_call preflight_response simple_headers (main docs_endpoint s) req in
  status_code r = 405%Z /\
  response_content r
  = JSONContent (PyDict [("detail", PyStr "Method Not Allowed")]).
Proof.
  intros Hp Hm Hpre r. subst r.
  destruct (app_call_not_preflight s req Hpre) as [-> ->].
  apply String.eqb_neq in Hm.
  unfold router, main. simpl.
  destruct Hp as [-> | ->]; simpl; unfold matches; simpl; rewrite Hm; simpl;
    split; reflexivity.
Qed.

(** X12.  A request whose path matches the pattern of no route, also
    after a trailing slash is added or removed, gets 404 with the detail
    [Not Found], outside a CORS preflight.  The pattern of a route matches
    its path and its path followed by one newline. *)
Theorem unknown_path_not_found (s : Settings) (req : Request) :
  (forall rp, In rp route_paths -> path_match rp (path req) = false) ->
  (forall rp, In rp route_paths ->
              path_match rp (slash_toggled (path req)) = false) ->
  is_preflight req = false ->
  let r := app_call preflight_response simple_headers (main docs_endpoint s) req in
  status_code r = 404%Z /\
  response_content r = JSONContent (PyDict [("detail", PyStr "Not Found")]).
Proof.
  intros Hp Ht Hpre r. subst r.
  destruct (app_call_not_preflight s req Hpre) as [-> ->].
  unfold router.
  rewrite find_route_none by (rewrite main_route_paths; exact Hp).
  rewrite existsb_matches, main_route_paths.
  assert (Hex : existsb (fun rp => path_match rp (slash_toggled (path req)))
                  route_paths = false).
  { destruct (existsb _ route_paths) eqn:E; [|reflexivity].
    apply existsb_exists in E. destruct E as (rp & Hrp & E).
    rewrite (Ht rp Hrp) in E. discriminate. }
  unfold slash_toggled in Hex. rewrite Hex, andb_false_r. split; reflexivity.
Qed.

(** X15.  The pattern of a route also matches its path followed by one
    newline: [GET /health%0A] and [GET /%0A] reach the handlers of
    [/health] and [/], whatever the settings object, the query string, the
    headers and the body. *)
Theorem newline_path_reaches_handler (s : Settings) (q : string)
    (hs : list (string * string)) (b : string) :
  let nl := String (ascii_of_nat 10) "" in
  let call p :=
    app_call preflight_response simple_headers
      (main docs_endpoint s)
      {| method := "GET"; path := p; query_string := q;
         headers := hs; body := b |} in
  status_code (call ("/" ++ nl)) = 200%Z /\
  response_content (call ("/" ++ nl))
    = JSONContent (PyDict [("message", PyStr "Hello World!")]) /\
  status_code (call ("/health" ++ nl)) = 200%Z /\
  response_content (call ("/health" ++ nl))
    = JSONContent (PyDict [("status", PyStr "healthy")]).
Proof.
  unfold app_call, main. simpl. unfold cors_call. simpl.
  destruct (header_get "origin" hs); repeat split; reflexivity.
Qed.

(** A path that becomes a route path when a slash is added or removed is
    no route path followed by a newline. *)
Lemma toggled_no_newline (p : string) :
  In (slash_toggled p) route_paths ->
  forall rp, In rp route_paths ->
    (p =? rp ++ String (ascii_of_nat 10) "")%string = false.
Proof.
  intros Ht rp Hrp.
  destruct (p =? rp ++ String (ascii_of_nat 10) "")%string eqn:E;
    [|reflexivity].
  apply String.eqb_eq in E. subst p. exfalso.
  unfold route_paths in Hrp. simpl in Hrp.
  repeat (destruct Hrp as [<- | Hrp];
          [vm_compute in Ht; intuition discriminate|]).
  contradiction.
Qed.

(** X13.  A request whose path is no route path but becomes one when a
    trailing slash is added or removed is redirected with status 307,
    outside a CORS preflight: [GET /health/] does not get the handler's
    answer. *)
Theorem slash_variant_redirected (s : Settings) (req : Request) :
  ~ In (path req) route_paths ->
  In (slash_toggled (path req)) route_paths ->
  is_preflight req = false ->
  status_code
    (app_call preflight_response simple_headers (main docs_endpoint s) req)
  = 307%Z.
Proof.
  intros Hp Ht Hpre.
  destruct (app_call_not_preflight s req Hpre) as [-> _].
  assert (Hnone : forall rp, In rp route_paths ->
                             path_match rp (path req) = false).
  { intros rp Hrp. unfold path_match.
    rewrite (toggled_no_newline _ Ht rp Hrp), orb_false_r.
    apply String.eqb_neq. intros Hx. apply Hp. rewrite Hx. exact Hrp. }
  assert (Hroot : (path req =? "/")%string = false).
  { apply String.eqb_neq. intros Hx. apply Hp. rewrite Hx.
    unfold route_paths. simpl. auto 10. }
  unfold router.
  rewrite find_route_none by (rewrite main_route_paths; exact Hnone).
  rewrite existsb_matches, main_route_paths.
  assert (Hex : existsb (fun rp => path_match rp (slash_toggled (path req)))
                  route_paths = true).
  { apply existsb_exists. exists (slash_toggled (path req)).
    split; [exact Ht | apply path_match_refl]. }
  unfold slash_toggled in Hex. rewrite Hroot, Hex. reflexivity.
Qed.

End ApplicationFacts.

(** * Concrete requests *)

Lemma other_methods_not_allowed_witness :
  let pre := fun (_ : CORSMiddleware) (_ : list (string * string)) =>
               mkResponse 200 [] (TextContent "OK") in
  let add := fun (_ : CORSMiddleware) (_ : list (string * string)) =>
               @nil (string * string) in
  let docs := fun (_ : string) (_ : Request) =>
                mkResponse 200 [] (TextContent "") in
  let s := mkSettings "file:./dev.db" "0.0.0.0" 8000 ["http://localhost:3000"]
             "k" "HS256" 30 in
  let r := app_call pre add (main docs s)
             {| method := "POST"; path := "/"; query_string := "";
                headers := [("origin", "http://localhost:3000")]; body := "" |} in
  status_code r = 405%Z /\
  response_content r
  = JSONContent (PyDict [("detail", PyStr "Method Not Allowed")]).
Proof.
  intros pre add docs s.
  apply (other_methods_not_allowed pre add docs s
           {| method := "POST"; path := "/"; query_string := "";
              headers := [("origin", "http://localhost:3000")]; body := "" |}).
  - left; reflexivity.
  - discriminate.
  - reflexivity.
Defined.

Lemma unknown_path_not_found_witness :
  let pre := fun (_ : CORSMiddleware) (_ : list (string * string)) =>
               mkResponse 200 [] (TextContent "OK") in
  let add := fun (_ : CORSMiddleware) (_ : list (string * string)) =>
               @nil (string * string) in
  let docs := fun (_ : string) (_ : Request) =>
                mkResponse 200 [] (TextContent "") in
  let s := mkSettings "file:./dev.db" "0.0.0.0" 8000 ["http://localhost:3000"]
             "k" "HS256" 30 in
  let r := app_call pre add (main docs s)
             {| method := "GET"; path := "/users"; query_string := "";
                headers := []; body := "" |} in
  status_code r = 404%Z /\
  response_content r = JSONContent (PyDict [("detail", PyStr "Not Found")]).
Proof.
  intros pre add docs s.
  apply (unknown_path_not_found pre add docs s
           {| method := "GET"; path := "/users"; query_string := "";
              headers := []; body := "" |}).
  - intros rp Hrp. unfold route_paths in Hrp. simpl in Hrp.
    repeat (destruct Hrp as [<- | Hrp]; [reflexivity|]). contradiction.
  - intros rp Hrp. unfold route_paths in Hrp. simpl in Hrp.
    repeat (destruct Hrp as [<- | Hrp]; [reflexivity|]). contradiction.
  - reflexivity.
Defined.

Lemma slash_variant_redirected_witness :
  let pre := fun (_ : CORSMiddleware) (_ : list (string * string)) =>
               mkResponse 200 [] (TextContent "OK") in
  let add := fun (_ : CORSMiddleware) (_ : list (string * string)) =>
               @nil (string * string) in
  let docs := fun (_ : string) (_ : Request) =>
                mkResponse 200 [] (TextContent "") in
  let s := mkSettings "file:./dev.db" "0.0.0.0" 8000 ["http://localhost:3000"]
             "k" "HS256" 30 in
  status_code
    (app_call pre add (main docs s)
       {| method := "GET"; path := "/health/"; query_string := "";
          headers := []; body := "" |}) = 307%Z.
Proof.
  intros pre add docs s.
  apply (slash_variant_redirected pre add docs s
           {| method := "GET"; path := "/health/"; query_string := "";
              headers := []; body := "" |}).
  - vm_compute. intuition discriminate.
  - vm_compute. auto 10.
  - reflexivity.
Defined.
